(** * Smart Attendance (QR-only): the session / check-in core of server.js

    A shallow embedding of the Express handlers of [server.js] over the
    four SQLite tables of [db-init.sql], and the properties of the
    session manager, the check-in validator, the CSV export and the
    faculty management routes.

    Modelling conventions.
    - A table is the list of its rows in insertion order.  [INSERT]
      appends a row and fails on a duplicate primary key; [db.get]
      returns the first row of the result.  Foreign keys are declared in
      the schema but SQLite does not enforce them unless the connection
      turns them on, which server.js never does.
    - A handler is a function from the database (and the request) to the
      new database and the response.  The values a handler obtains from
      its environment, the readings of [Date.now()] and the results of
      [uuidv4()], are arguments of the handler, in the order of the calls.
    - [serve] runs a handler from its first statement to its response.
      The handlers of two requests can interleave where they [await] the
      database; the one interleaving that matters, between the checks
      and the [INSERT] of two check-ins, is treated at the end.
    - Request fields that carry identifiers are absent or strings
      ([option string]).  A JavaScript number is a binary64 value: one
      whose value is an integer is written as that integer in [Z],
      rounded as the machine rounds it ([Js.to_double]), with the integer
      of magnitude 2^1024, which no finite binary64 value has, standing
      for the infinity of its sign; [NaN] is [None]; a number that is not
      an integer is given by the string it prints as.  Strings are
      sequences of code points below 256. *)

From Stdlib Require Import ZArith List String Ascii Bool Lia.
From Stdlib Require DecimalString DecimalPos.
Import ListNotations.

Local Open Scope string_scope.
Local Open Scope Z_scope.

(** ** JavaScript values and coercions *)

Module Js.

(** The values a request body can carry in [durationMinutes].  [Num z]
    is the number that the JSON literal of the integer [z] is read as:
    [z] itself when it is a binary64 value, its rounding otherwise.  A
    number that is not an integer, and an array or an object, are given
    by the string that [String(x)] converts them to: 1.5 is
    [Frac "1.5"], 0.5 is [Frac "0.5"], the array of the one string "45"
    is [Obj "45"]. *)
Inductive value : Type :=
| Undefined
| Null
| Bool (b : bool)
| Num (z : Z)
| Str (s : string)
| Frac (shown : string)
| Obj (shown : string).

(** ToBoolean.  A number that is not an integer is neither 0 nor [NaN];
    arrays and objects are truthy. *)
Definition truthy (v : value) : bool :=
  match v with
  | Undefined | Null => false
  | Bool b => b
  | Num z => negb (z =? 0)
  | Str s => negb (s =? "")%string
  | Frac _ | Obj _ => true
  end.

(** [a || b]. *)
Definition or_else (a b : value) : value := if truthy a then a else b.

(** A number whose value is an integer or an infinity, or [NaN]. *)
Definition number : Type := option Z.

(** No finite binary64 value reaches 2^1024: the integer stands for
    [Infinity], and its opposite for [-Infinity]. *)
Definition infinity : Z := 2 ^ 1024.

(** The binary64 value nearest to the integer [z]: [z] is kept on 53
    significant bits, rounded to nearest with ties to the even
    significand; what rounds to 2^1024 or beyond is an infinity. *)
Definition to_double (z : Z) : Z :=
  let a := Z.abs z in
  let k := Z.log2 a - 52 in
  if k <=? 0 then z
  else
    let q := Z.shiftr a k in
    let r := a - Z.shiftl q k in
    let half := Z.shiftl 1 (k - 1) in
    let q' := if r <? half then q
              else if half <? r then q + 1
              else if Z.even q then q else q + 1 in
    let v := Z.shiftl q' k in
    Z.sgn z * (if infinity <=? v then infinity else v).

(** The number of decimal digits of a positive integer. *)
Fixpoint decimal_length (fuel : nat) (x : Z) : Z :=
  match fuel with
  | O => 1
  | S f => if x <? 10 then 1 else 1 + decimal_length f (x / 10)
  end.

(** The decimal integer [c] is read back as the finite binary64 integer
    [x >= 2^53]: it lies between the midpoints to the two neighbours of
    [x], the midpoints included when the significand of [x] is even. *)
Definition reads_back (x c : Z) : bool :=
  let e := Z.log2 x - 52 in
  let m := Z.shiftr x e in
  let half := Z.shiftl 1 (e - 1) in
  let low := x - (if m =? 2 ^ 52 then Z.shiftr half 1 else half) in
  let high := x + half in
  if Z.even m then (low <=? c) && (c <=? high)
  else (low <? c) && (c <? high).

(** The first digit of [String(x)] for a finite binary64 integer [x] of
    [n >= 22] decimal digits: [String(x)] shows the digits [s] of the
    shortest decimal [s * 10^(n-k)] that is read back as [x], the
    closest to [x] when there are two.  [k] is the number of digits
    tried, from 1 up; 17 digits always suffice. *)
Fixpoint shortest_first_digit (fuel : nat) (k n x : Z) : Z :=
  match fuel with
  | O => x / 10 ^ (n - 1)
  | S f =>
      let unit := 10 ^ (n - k) in
      let s1 := x / unit in
      let s2 := s1 + 1 in
      let c1 := s1 * unit in
      let c2 := s2 * unit in
      let first s := if s =? 10 ^ k then 1 else s / 10 ^ (k - 1) in
      match reads_back x c1, reads_back x c2 with
      | true, true =>
          if x - c1 <? c2 - x then first s1
          else if c2 - x <? x - c1 then first s2
          else if Z.even s1 then first s1 else first s2
      | true, false => first s1
      | false, true => first s2
      | false, false => shortest_first_digit f (k + 1) n x
      end
  end.

Definition is_ws (c : ascii) : bool :=
  match nat_of_ascii c with
  | 9%nat | 10%nat | 11%nat | 12%nat | 13%nat | 32%nat | 160%nat => true
  | _ => false
  end.

Fixpoint skip_ws (s : string) : string :=
  match s with
  | String c r => if is_ws c then skip_ws r else s
  | EmptyString => s
  end.

Definition digit_of (c : ascii) : option Z :=
  let n := Z.of_nat (nat_of_ascii c) in
  if (48 <=? n) && (n <=? 57) then Some (n - 48) else None.

(** The integer that the longest prefix of decimal digits denotes, not
    yet rounded to a number; [NaN] when the prefix is empty. *)
Fixpoint digits (s : string) (acc : number) : number :=
  match s with
  | String c r =>
      match digit_of c with
      | Some d =>
          digits r (Some (10 * match acc with Some a => a | None => 0 end + d))
      | None => acc
      end
  | EmptyString => acc
  end.

(** [parseInt(s, 10)] on a string: leading white space, an optional
    sign, then decimal digits; what follows the digits is ignored.  The
    result is the binary64 value of the integer the digits denote. *)
Definition parseInt_string (s : string) : number :=
  option_map to_double
    match skip_ws s with
    | String "-" r => option_map Z.opp (digits r None)
    | String "+" r => digits r None
    | r => digits r None
    end.

(** [parseInt(v, 10)]: the argument is first converted to a string.  A
    binary64 integer below 10^21 in magnitude prints in plain decimal
    digits that are read back as itself.  From 10^21 on it prints as
    ["d.ddde+n"], of which [parseInt] reads the first digit; an infinity
    prints as ["Infinity"].  ["true"], ["false"], ["null"],
    ["undefined"] and ["Infinity"] have no digits. *)
Definition parseInt (v : value) : number :=
  match v with
  | Num z =>
      let x := to_double z in
      if Z.abs x <? 10 ^ 21 then Some x
      else if Z.abs x =? infinity then None
      else
        Some (Z.sgn x
              * shortest_first_digit 17 1 (decimal_length 400 (Z.abs x))
                                     (Z.abs x))
  | Str s | Frac s | Obj s => parseInt_string s
  | Undefined | Null | Bool _ => None
  end.

(** [a * k] for an integer constant [k] other than 0, and [a + b] for
    an integer [a], on numbers whose values are integers or infinities:
    the exact result, rounded to binary64; an infinity stays what it
    is. *)
Definition mul (a : number) (k : Z) : number :=
  option_map (fun x => to_double (x * k)) a.
Definition add (a : Z) (b : number) : number :=
  option_map
    (fun x => if Z.abs x =? infinity then x else to_double (a + x)) b.

(** [a > b] where [b] was read from an INTEGER column: SQL NULL is read
    as [null], which compares as 0. *)
Definition gt (a : Z) (b : option Z) : bool :=
  match b with
  | Some e => e <? a
  | None => 0 <? a
  end.

(** [!x] negated, for a field that is absent or a string: the string
    when it is truthy. *)
Definition given (x : option string) : option string :=
  match x with
  | Some s => if (s =? "")%string then None else Some s
  | None => None
  end.

(** [s.split('-')[0]]. *)
Fixpoint split_dash_head (s : string) : string :=
  match s with
  | String c r => if Ascii.eqb c "-" then "" else String c (split_dash_head r)
  | EmptyString => ""
  end.

End Js.

(** ** The persisted schema (db-init.sql) *)

(** [role TEXT NOT NULL CHECK(role IN ('student','faculty'))] *)
Inductive role : Type := student | faculty.

Definition role_eqb (a b : role) : bool :=
  match a, b with
  | student, student | faculty, faculty => true
  | _, _ => false
  end.

Record user : Type := mkUser {
  u_id : string;
  u_name : string;
  u_role : role
}.

Record section : Type := mkSection {
  sec_id : string;
  sec_code : string;
  sec_title : string;
  sec_faculty_id : string
}.

(** [expires_at] is NULL when the handler computed [NaN]: SQLite stores a
    NaN as NULL.  An infinity is stored and read back as it is. *)
Record session : Type := mkSession {
  s_id : string;
  s_section_id : string;
  s_token : string;
  s_start_at : Z;
  s_expires_at : option Z
}.

Record attendance_row : Type := mkAttendance {
  a_id : string;
  a_session_id : string;
  a_student_id : string;
  a_status : string;
  a_checkin_time : Z;
  a_method : string
}.

Record DB : Type := mkDB {
  users : list user;
  sections : list section;
  sessions : list session;
  attendance : list attendance_row
}.

Definition set_users (db : DB) (l : list user) : DB :=
  mkDB l (sections db) (sessions db) (attendance db).
Definition set_sections (db : DB) (l : list section) : DB :=
  mkDB (users db) l (sessions db) (attendance db).
Definition set_sessions (db : DB) (l : list session) : DB :=
  mkDB (users db) (sections db) l (attendance db).
Definition set_attendance (db : DB) (l : list attendance_row) : DB :=
  mkDB (users db) (sections db) (sessions db) l.

(** ** The SQL statements of server.js *)

Module Sql.

(** [INSERT] into a table whose primary key is [key]: [None] is the
    SQLITE_CONSTRAINT error. *)
Definition insert {A : Type} (key : A -> string) (row : A) (table : list A)
  : option (list A) :=
  if existsb (fun r => (key r =? key row)%string) table then None
  else Some (table ++ [row])%list.

(** [SELECT * FROM users WHERE id=? AND role=?] *)
Definition user_by_id_role (db : DB) (id : string) (r : role) : option user :=
  find (fun u => (u_id u =? id)%string && role_eqb (u_role u) r) (users db).

(** [SELECT * FROM users WHERE role='faculty'] *)
Definition faculty_users (db : DB) : list user :=
  filter (fun u => role_eqb (u_role u) faculty) (users db).

(** [DELETE FROM users WHERE id=? AND role="faculty"].  [users] has no
    column named [faculty], and SQLite reads a double-quoted name that is
    no column as the string literal. *)
Definition delete_faculty (db : DB) (id : string) : DB :=
  set_users db
    (filter (fun u => negb ((u_id u =? id)%string && role_eqb (u_role u) faculty))
            (users db)).

(** [SELECT * FROM sections WHERE id=?] *)
Definition section_by_id (db : DB) (id : string) : option section :=
  find (fun s => (sec_id s =? id)%string) (sections db).

(** [SELECT * FROM sessions WHERE id=?] *)
Definition session_by_id (db : DB) (id : string) : option session :=
  find (fun s => (s_id s =? id)%string) (sessions db).

(** [SELECT * FROM attendance WHERE session_id=? AND student_id=?] *)
Definition attendance_of (db : DB) (sid stu : string) : option attendance_row :=
  find (fun a => (a_session_id a =? sid)%string && (a_student_id a =? stu)%string)
       (attendance db).

(** [SELECT id FROM sessions WHERE section_id=?] *)
Definition session_ids_of_section (db : DB) (sec : string) : list string :=
  map s_id (filter (fun s => (s_section_id s =? sec)%string) (sessions db)).

(** [SELECT id FROM sessions] *)
Definition session_ids (db : DB) : list string := map s_id (sessions db).

(** [SELECT a.*, s.section_id FROM attendance a LEFT JOIN sessions s
    ON s.id=a.session_id WHERE a.session_id IN (ids)] *)
Definition attendance_in (db : DB) (ids : list string)
  : list (attendance_row * option string) :=
  flat_map
    (fun a =>
       match filter (fun s => (s_id s =? a_session_id a)%string) (sessions db) with
       | [] => [(a, None)]
       | l => map (fun s => (a, Some (s_section_id s))) l
       end)
    (filter (fun a => existsb (String.eqb (a_session_id a)) ids)
            (attendance db)).

(** The message of the error a failed [INSERT] rejects with. *)
Definition constraint_failed (column : string) : string :=
  "SQLITE_CONSTRAINT: UNIQUE constraint failed: " ++ column.

End Sql.

(** ** Responses and early returns *)

(** A row of the CSV report.  [checkin_time] is the instant the handler
    passes to [toISOString]; the rendering itself is not modelled. *)
Record csv_row : Type := mkCsvRow {
  attendance_id : string;
  csv_session_id : string;
  csv_section_id : option string;
  csv_student_id : string;
  csv_status : string;
  csv_checkin_time : Z;
  csv_method : string
}.

(** The value a handler hands to [res.json], [res.send] or the CSV
    stringifier.  [expiresAt] is the number the handler computed; in the
    JSON text a [NaN] and an infinity are both written [null]. *)
Inductive body : Type :=
| JsonError (msg : string)
| JsonSuccess
| JsonCheckedIn
| JsonSession (sessionId token : string) (expiresAt : Js.number)
              (checkinUrl : string)
| JsonUsers (rows : list user)
| JsonSections (rows : list section)
| Text (s : string)
| Csv (rows : list csv_row).

Record response : Type := reply {
  status : Z;
  content : body
}.

(** [res.json(x)] and [res.send(x)] without [res.status] answer 200. *)
Definition ok (b : body) : response := reply 200 b.

(** Where a handler stands after a statement: it has returned a response,
    or it goes on with a value. *)
Inductive outcome (A : Type) : Type :=
| Return (r : response)
| Next (a : A).
Arguments Return {A} r.
Arguments Next {A} a.

Definition bind {A B : Type} (m : outcome A) (k : A -> outcome B) : outcome B :=
  match m with
  | Return r => Return r
  | Next a => k a
  end.

Declare Scope handler_scope.
Delimit Scope handler_scope with handler.
Notation "x <- m ;; k" := (bind m (fun x => k))
  (at level 61, m at next level, right associativity) : handler_scope.
Notation "m ;; k" := (bind m (fun _ => k))
  (at level 61, right associativity) : handler_scope.

(** [if (!x) return r;] *)
Definition require {A : Type} (x : option A) (r : response) : outcome A :=
  match x with
  | Some a => Next a
  | None => Return r
  end.

(** [if (c) return r;] *)
Definition return_if (c : bool) (r : response) : outcome unit :=
  if c then Return r else Next tt.

Definition is_some {A : Type} (x : option A) : bool :=
  match x with Some _ => true | None => false end.

(** ** Faculty management *)

(** [POST /api/faculty/add] *)
Definition faculty_add (db : DB) (id name : option string) : DB * response :=
  match Js.given id, Js.given name with
  | Some i, Some n =>
      match Sql.insert u_id (mkUser i n faculty) (users db) with
      | Some us => (set_users db us, ok JsonSuccess)
      | None => (db, reply 500 (JsonError (Sql.constraint_failed "users.id")))
      end
  | _, _ => (db, reply 400 (JsonError "id & name required"))
  end.

(** [DELETE /api/faculty/delete/:id] *)
Definition faculty_delete (db : DB) (id : string) : DB * response :=
  (Sql.delete_faculty db id, ok JsonSuccess).

(** ** Session manager: [POST /api/session] *)

Record session_request : Type := mkSessionRequest {
  facultyId : option string;
  sectionId : option string;
  durationMinutes : Js.value;
  protocol : string;
  host : string
}.

(** Lines 107-112: the validation of the request. *)
Definition session_checks (db : DB) (req : session_request)
  : outcome (string * string) :=
  (fid <- require (Js.given (facultyId req))
            (reply 400 (JsonError "Missing fields")) ;;
   sec <- require (Js.given (sectionId req))
            (reply 400 (JsonError "Missing fields")) ;;
   _ <- require (Sql.user_by_id_role db fid faculty)
            (reply 400 (JsonError "Invalid faculty")) ;;
   _ <- require (Sql.section_by_id db sec)
            (reply 400 (JsonError "Invalid section")) ;;
   Next (fid, sec))%handler.

(** [startAt + ((parseInt(durationMinutes || 30,10))*60*1000)] *)
Definition expiry (startAt : Z) (duration : Js.value) : Js.number :=
  Js.add startAt
    (Js.mul (Js.mul (Js.parseInt (Js.or_else duration (Js.Num 30))) 60) 1000).

Definition checkin_url (req : session_request) (id token : string) : string :=
  protocol req ++ "://" ++ host req ++ "/scan?session=" ++ id
    ++ "&token=" ++ token.

(** [uuid1] and [uuid2] are the results of the two calls of [uuidv4()],
    [now] is the reading of [Date.now()]. *)
Definition create_session (db : DB) (req : session_request)
    (uuid1 uuid2 : string) (now : Z) : DB * response :=
  match session_checks db req with
  | Return r => (db, r)
  | Next (_, sec) =>
      let id := uuid1 in
      let token := Js.split_dash_head uuid2 in
      let startAt := now in
      let expiresAt := expiry startAt (durationMinutes req) in
      match Sql.insert s_id (mkSession id sec token startAt expiresAt)
                       (sessions db) with
      | Some ss =>
          (set_sessions db ss,
           ok (JsonSession id token expiresAt (checkin_url req id token)))
      | None => (db, reply 500 (JsonError (Sql.constraint_failed "sessions.id")))
      end
  end.

(** ** Check-in validator: [POST /api/checkin] *)

Record checkin_request : Type := mkCheckinRequest {
  sessionId : option string;
  token : option string;
  studentId : option string
}.

(** Lines 147-156: the guard on the parameters and the five checks, at the
    reading [now] of [Date.now()]. *)
Definition checkin_checks (db : DB) (req : checkin_request) (now : Z)
  : outcome (string * string) :=
  (sid <- require (Js.given (sessionId req))
            (reply 400 (JsonError "Missing params")) ;;
   tok <- require (Js.given (token req))
            (reply 400 (JsonError "Missing params")) ;;
   stu <- require (Js.given (studentId req))
            (reply 400 (JsonError "Missing params")) ;;
   session <- require (Sql.session_by_id db sid)
            (reply 404 (JsonError "Session not found")) ;;
   return_if (negb (s_token session =? tok)%string)
            (reply 403 (JsonError "Invalid token")) ;;
   return_if (Js.gt now (s_expires_at session))
            (reply 403 (JsonError "Session expired")) ;;
   _ <- require (Sql.user_by_id_role db stu student)
            (reply 403 (JsonError "Student not found")) ;;
   return_if (is_some (Sql.attendance_of db sid stu))
            (reply 409 (JsonError "Already checked in")) ;;
   Next (sid, stu))%handler.

(** Lines 158-160: the insertion, with [recId] the result of [uuidv4()]
    and [now'] the second reading of [Date.now()]. *)
Definition checkin_insert (db : DB) (sid stu : string) (now' : Z)
    (recId : string) : DB * response :=
  match Sql.insert a_id (mkAttendance recId sid stu "present" now' "qr")
                   (attendance db) with
  | Some rows => (set_attendance db rows, ok JsonCheckedIn)
  | None => (db, reply 500 (JsonError (Sql.constraint_failed "attendance.id")))
  end.

Definition checkin (db : DB) (req : checkin_request) (now now' : Z)
    (recId : string) : DB * response :=
  match checkin_checks db req now with
  | Return r => (db, r)
  | Next (sid, stu) => checkin_insert db sid stu now' recId
  end.

(** ** Reporting *)

(** [new Date(t).toISOString()] throws a RangeError outside the range of
    time values. *)
Definition valid_time (t : Z) : bool := Z.abs t <=? 8640000000000000.

Definition csv_of (r : attendance_row * option string) : csv_row :=
  mkCsvRow (a_id (fst r)) (a_session_id (fst r)) (snd r) (a_student_id (fst r))
           (a_status (fst r)) (a_checkin_time (fst r)) (a_method (fst r)).

(** SQLite binds at most 32766 host parameters in one statement
    (SQLITE_MAX_VARIABLE_NUMBER); a statement with more is refused when
    it is prepared. *)
Definition max_host_parameters : Z := 32766.

(** [GET /report/csv?section=...].  The second query binds one host
    parameter per session id; when it is refused the handler's [catch]
    answers. *)
Definition report_csv (db : DB) (section : option string) : response :=
  let ids :=
    match Js.given section with
    | Some sec => Sql.session_ids_of_section db sec
    | None => Sql.session_ids db
    end in
  if (Z.of_nat (List.length ids) =? 0) then ok (Text "No sessions")
  else if (max_host_parameters <? Z.of_nat (List.length ids))
  then reply 500 (Text "Report failed")
  else
    let rows := Sql.attendance_in db ids in
    if forallb (fun r => valid_time (a_checkin_time (fst r))) rows
    then ok (Csv (map csv_of rows))
    else reply 500 (Text "Report failed").

(** [GET /api/sections], [GET /api/users], [GET /api/faculty] *)
Definition list_sections (db : DB) : response := ok (JsonSections (sections db)).
Definition list_users (db : DB) : response := ok (JsonUsers (users db)).
Definition list_faculty (db : DB) : response := ok (JsonUsers (Sql.faculty_users db)).

(** ** Start-up *)

(** One seeding [INSERT] inside the [try] of [initDb]: a failure leaves
    the [try] block. *)
Definition seeded {A : Type} (x : option A) (k : A -> DB) (db : DB) : DB :=
  match x with
  | Some a => k a
  | None => db
  end.

(** [initDb]: the schema statements are [CREATE TABLE IF NOT EXISTS] and
    change nothing once the tables exist; the demo rows are inserted when
    [users] is empty. *)
Definition initDb (db : DB) : DB :=
  match users db with
  | _ :: _ => db
  | [] =>
      seeded (Sql.insert u_id (mkUser "faculty1" "Prof. Alice" faculty) (users db))
        (fun us1 => let db1 := set_users db us1 in
      seeded (Sql.insert u_id (mkUser "stu1" "Bob Student" student) (users db1))
        (fun us2 => let db2 := set_users db1 us2 in
      seeded (Sql.insert u_id (mkUser "stu2" "Cara Student" student) (users db2))
        (fun us3 => let db3 := set_users db2 us3 in
      seeded (Sql.insert sec_id (mkSection "sec101" "CS101" "Intro to CS" "faculty1")
                         (sections db3))
        (fun ss => set_sections db3 ss) db3) db2) db1) db
  end.

(** ** The system as a transition system *)

(** The routes that run one [SELECT] or send a file: [GET /api/sessions],
    [GET /api/attendance], [GET /session/:id/qr] and the static views.
    Their responses are not modelled. *)
Inductive read_only_route : Type :=
| SessionsListing
| AttendanceListing
| QrPage (id : string)
| StaticView (name : string).

(** A request served by the process, with the values its handler obtained
    from the clock and from [uuidv4()]. *)
Inductive event : Type :=
| Startup
| FacultyAdd (id name : option string)
| FacultyDelete (id : string)
| CreateSession (req : session_request) (uuid1 uuid2 : string) (now : Z)
| Checkin (req : checkin_request) (now now' : Z) (recId : string)
| ReportCsv (section : option string)
| ListSections
| ListUsers
| ListFaculty
| ReadOnly (route : read_only_route).

(** The database after the event, and the response where there is one
    and the model describes it. *)
Definition serve (db : DB) (e : event) : DB * option response :=
  match e with
  | Startup => (initDb db, None)
  | FacultyAdd id name => let (db', r) := faculty_add db id name in (db', Some r)
  | FacultyDelete id => let (db', r) := faculty_delete db id in (db', Some r)
  | CreateSession req u1 u2 now =>
      let (db', r) := create_session db req u1 u2 now in (db', Some r)
  | Checkin req now now' recId =>
      let (db', r) := checkin db req now now' recId in (db', Some r)
  | ReportCsv section => (db, Some (report_csv db section))
  | ListSections => (db, Some (list_sections db))
  | ListUsers => (db, Some (list_users db))
  | ListFaculty => (db, Some (list_faculty db))
  | ReadOnly _ => (db, None)
  end.

Definition after (db : DB) (e : event) : DB := fst (serve db e).

(** The database after a sequence of requests served one at a time. *)
Definition run (db : DB) (es : list event) : DB := fold_left after es db.


(** ** The five checks of the validator, one by one

    Each condition is that of the corresponding [if] of lines 150-156 of
    server.js, taken on its own; the names of the failures and the order
    in which they are listed are those of the specification (section 4.2). *)

Inductive failure : Type :=
| SessionNotFound
| InvalidToken
| SessionExpired
| StudentNotFound
| DuplicateCheckin.

(** The response by which [POST /api/checkin] reports each failure. *)
Definition failure_response (f : failure) : response :=
  match f with
  | SessionNotFound => reply 404 (JsonError "Session not found")
  | InvalidToken => reply 403 (JsonError "Invalid token")
  | SessionExpired => reply 403 (JsonError "Session expired")
  | StudentNotFound => reply 403 (JsonError "Student not found")
  | DuplicateCheckin => reply 409 (JsonError "Already checked in")
  end.

(** The session the request names; an absent identifier matches no row. *)
Definition session_of (db : DB) (req : checkin_request) : option session :=
  match sessionId req with
  | Some sid => Sql.session_by_id db sid
  | None => None
  end.

Definition student_of (db : DB) (req : checkin_request) : option user :=
  match studentId req with
  | Some stu => Sql.user_by_id_role db stu student
  | None => None
  end.

Definition record_of (db : DB) (req : checkin_request) : option attendance_row :=
  match sessionId req, studentId req with
  | Some sid, Some stu => Sql.attendance_of db sid stu
  | _, _ => None
  end.

Definition same_token (supplied : option string) (stored : string) : bool :=
  match supplied with
  | Some t => (stored =? t)%string
  | None => false
  end.

(** Each check on its own: [true] when the request fails it.  The checks
    on the token and on the expiry read the session, and do not fail
    where there is none to read. *)
Definition fails (f : failure) (db : DB) (req : checkin_request) (now : Z) : bool :=
  match f with
  | SessionNotFound => negb (is_some (session_of db req))
  | InvalidToken =>
      match session_of db req with
      | Some s => negb (same_token (token req) (s_token s))
      | None => false
      end
  | SessionExpired =>
      match session_of db req with
      | Some s => Js.gt now (s_expires_at s)
      | None => false
      end
  | StudentNotFound => negb (is_some (student_of db req))
  | DuplicateCheckin => is_some (record_of db req)
  end.

(** The order in which the specification lists the checks. *)
Definition listed_order : list failure :=
  [SessionNotFound; InvalidToken; SessionExpired; StudentNotFound;
   DuplicateCheckin].

(** The first check of [order] that the request fails. *)
Definition first_failing (order : list failure) (db : DB)
    (req : checkin_request) (now : Z) : option failure :=
  find (fun f => fails f db req now) order.

(** ** Predicates on databases and events *)

(** The number of attendance rows of a (session, student) pair. *)
Definition records_of_pair (db : DB) (sid stu : string) : nat :=
  List.length
    (filter (fun a => (a_session_id a =? sid)%string && (a_student_id a =? stu)%string)
            (attendance db)).

Definition at_most_one_record (db : DB) : Prop :=
  forall sid stu, (records_of_pair db sid stu <= 1)%nat.

(** The rows a check-in reads are still read, unchanged, after any other
    request: sessions and attendance records are only appended, and the
    one [DELETE] of the system spares the students. *)
Record lookups_kept (db db' : DB) : Prop := {
  kept_session : forall sid s,
    Sql.session_by_id db sid = Some s -> Sql.session_by_id db' sid = Some s;
  kept_student : forall stu u,
    Sql.user_by_id_role db stu student = Some u ->
    Sql.user_by_id_role db' stu student = Some u;
  kept_record : forall sid stu a,
    Sql.attendance_of db sid stu = Some a ->
    Sql.attendance_of db' sid stu = Some a
}.

(** Every identifier and token the database holds is a non-empty string,
    as all those that [uuidv4()] and the guards of the handlers let in. *)
Definition well_keyed (db : DB) : Prop :=
  (forall s, In s (sessions db) -> s_id s <> "" /\ s_token s <> "")
  /\ (forall u, In u (users db) -> u_id u <> "").

(** The identifiers [uuidv4()] returned during the event are not empty,
    and neither is the part before the first dash. *)
Definition generated_ids_nonempty (e : event) : Prop :=
  match e with
  | CreateSession _ uuid1 uuid2 _ => uuid1 <> "" /\ Js.split_dash_head uuid2 <> ""
  | _ => True
  end.

(** ** A small instance: the seeded database with one session *)

Definition empty_db : DB := mkDB [] [] [] [].

Definition demo_request : session_request :=
  mkSessionRequest (Some "faculty1") (Some "sec101") (Js.Num 30)
                   "http" "localhost:3001".

(** The same request with the duration given as the number 0. *)
Definition zero_minutes_request : session_request :=
  mkSessionRequest (Some "faculty1") (Some "sec101") (Js.Num 0)
                   "http" "localhost:3001".

(** The demo rows, and a session of 30 minutes created at time 1000. *)
Definition demo_db : DB :=
  fst (create_session (initDb empty_db) demo_request
         "0b6f7a1e-5c1d-4e0a-9d56-3f2a7c8e9b10"
         "a1b2c3d4-1111-4222-8333-444455556666" 1000).

Definition demo_session : string := "0b6f7a1e-5c1d-4e0a-9d56-3f2a7c8e9b10".

Definition demo_checkin : checkin_request :=
  mkCheckinRequest (Some demo_session) (Some "a1b2c3d4") (Some "stu1").

(** The database after the demo check-in of [stu1] at time 2000. *)
Definition demo_db_checked_in : DB :=
  fst (checkin demo_db demo_checkin 2000 2001 "rec-1").

(** ** QR page: [GET /session/:id/qr] *)

(** The URL both the session manager and the QR page build. *)
Definition scan_url (protocol host id token : string) : string :=
  protocol ++ "://" ++ host ++ "/scan?session=" ++ id ++ "&token=" ++ token.

Definition dquote : string := String (ascii_of_nat 34) "".
Definition newline : string := String (ascii_of_nat 10) "".

(** The template literal of lines 132-140, line by line. *)
Definition qr_page (sessionId url dataUrl : string) : string :=
  newline
  ++ "      <html><head><title>QR</title></head><body style=" ++ dquote
  ++ "font-family:Arial, sans-serif; text-align:center; padding:30px;"
  ++ dquote ++ ">" ++ newline
  ++ "        <h2>Scan to check-in</h2>" ++ newline
  ++ "        <img src=" ++ dquote ++ dataUrl ++ dquote ++ " style=" ++ dquote
  ++ "width:260px;" ++ dquote ++ "/>" ++ newline
  ++ "        <p>Session: " ++ sessionId ++ "</p>" ++ newline
  ++ "        <p>URL: <a href=" ++ dquote ++ url ++ dquote ++ ">" ++ url
  ++ "</a></p>" ++ newline
  ++ "        <p><a href=" ++ dquote ++ "/" ++ dquote ++ ">Back</a></p>" ++ newline
  ++ "      </body></html>" ++ newline
  ++ "    ".

Section QrPage.

(** [QRCode.toDataURL]: the data URL of the image, or [None] when the
    promise rejects. *)
Variable toDataURL : string -> option string.

Definition session_qr (db : DB) (protocol host id : string) : response :=
  match Sql.session_by_id db id with
  | None => reply 404 (Text "Session not found")
  | Some session =>
      let url := scan_url protocol host id (s_token session) in
      match toDataURL url with
      | Some dataUrl => ok (Text (qr_page id url dataUrl))
      | None => reply 500 (Text "QR error")
      end
  end.

End QrPage.

(** ** Decimal numerals *)

(** The string a form field or [String(z)] gives for the integer [z]: its
    decimal digits, after a minus sign when it is negative. *)
Definition decimal (z : Z) : string :=
  DecimalString.NilZero.string_of_int (Z.to_int z).

(** ** What the schema promises and the handlers keep *)

(** The four primary keys. *)
Record keys_unique (db : DB) : Prop := {
  users_unique : NoDup (map u_id (users db));
  sections_unique : NoDup (map sec_id (sections db));
  sessions_unique : NoDup (map s_id (sessions db));
  attendance_unique : NoDup (map a_id (attendance db))
}.

(** The references the schema declares from [attendance] and [sessions],
    and the constant columns of an attendance row. *)
Record references_hold (db : DB) : Prop := {
  attendance_session : forall a, In a (attendance db) ->
    exists s, In s (sessions db) /\ s_id s = a_session_id a;
  attendance_student : forall a, In a (attendance db) ->
    exists u, In u (users db) /\ u_id u = a_student_id a /\ u_role u = student;
  attendance_marks : forall a, In a (attendance db) ->
    a_status a = "present" /\ a_method a = "qr";
  session_section : forall s, In s (sessions db) ->
    exists c, In c (sections db) /\ sec_id c = s_section_id s
}.

(** Every stored check-in time is one [toISOString] can render. *)
Definition times_valid (db : DB) : Prop :=
  forall a, In a (attendance db) -> valid_time (a_checkin_time a) = true.

(** The readings of the clock during the event are time values. *)
Definition clock_valid (e : event) : Prop :=
  match e with
  | Checkin _ _ now' _ => valid_time now' = true
  | _ => True
  end.

(** The section of the session an attendance row names. *)
Definition section_of_record (db : DB) (a : attendance_row) : option string :=
  option_map s_section_id (Sql.session_by_id db (a_session_id a)).

(** The attendance row names a session of section [sec]. *)
Definition recorded_in_section (db : DB) (sec : string) (a : attendance_row)
  : bool :=
  existsb (fun s => (s_id s =? a_session_id a)%string
                    && (s_section_id s =? sec)%string)
          (sessions db).

(** The faculty management requests. *)
Definition manages_faculty (e : event) : Prop :=
  match e with
  | FacultyAdd _ _ | FacultyDelete _ => True
  | _ => False
  end.

(** * Properties *)

(** ** Lists, [find] and [INSERT] *)

Section Tables.

Context {A : Type}.
Implicit Types (p q : A -> bool) (l : list A).

Lemma find_app_some p l l' x :
  find p l = Some x -> find p (l ++ l')%list = Some x.
Proof.
  induction l as [|a l IH]; simpl; [discriminate|].
  destruct (p a); auto.
Qed.

Lemma find_app_none p l l' :
  find p l = None -> find p (l ++ l')%list = find p l'.
Proof.
  induction l as [|a l IH]; simpl; [reflexivity|].
  destruct (p a); [discriminate | exact IH].
Qed.

Lemma find_app_hit p l x :
  p x = true -> exists y, find p (l ++ [x])%list = Some y.
Proof.
  intros Hx. destruct (find p l) as [y|] eqn:Hf.
  - exists y. now apply find_app_some.
  - exists x. rewrite find_app_none by exact Hf. simpl. now rewrite Hx.
Qed.

Lemma find_filter_keeps p q l :
  (forall x, p x = true -> q x = true) ->
  find p (filter q l) = find p l.
Proof.
  intros Hpq. induction l as [|a l IH]; simpl; [reflexivity|].
  destruct (q a) eqn:Hq; simpl.
  - destruct (p a); [reflexivity | exact IH].
  - destruct (p a) eqn:Hp; [|exact IH].
    apply Hpq in Hp. congruence.
Qed.

Lemma find_none_filter p l : find p l = None -> filter p l = [].
Proof.
  induction l as [|a l IH]; simpl; [reflexivity|].
  destruct (p a); [discriminate | exact IH].
Qed.

Lemma find_none_iff p l : find p l = None <-> forall x, In x l -> p x = false.
Proof.
  split.
  - intros H x Hx. exact (find_none p l H x Hx).
  - induction l as [|a l IH]; simpl; intros H; [reflexivity|].
    rewrite (H a (or_introl eq_refl)). apply IH. intros x Hx. apply H. now right.
Qed.

Lemma insert_appends (key : A -> string) row l l' :
  Sql.insert key row l = Some l' -> l' = (l ++ [row])%list.
Proof.
  unfold Sql.insert. destruct (existsb _ l); congruence.
Qed.

Lemma insert_fresh (key : A -> string) row l :
  existsb (fun r => (key r =? key row)%string) l = false ->
  Sql.insert key row l = Some (l ++ [row])%list.
Proof.
  unfold Sql.insert. now intros ->.
Qed.

End Tables.

Lemma given_some (x : option string) (s : string) :
  Js.given x = Some s -> x = Some s /\ s <> "".
Proof.
  destruct x as [t|]; simpl; [|discriminate].
  destruct (String.eqb_spec t ""); [discriminate|].
  intros [= <-]. auto.
Qed.

(** ** The check-in handler against the listed checks *)

(** On a request that carries its three parameters, the handler's
    validation is the search for the first failing check. *)
Lemma checkin_checks_first_failing db req now sid tok stu :
  Js.given (sessionId req) = Some sid ->
  Js.given (token req) = Some tok ->
  Js.given (studentId req) = Some stu ->
  checkin_checks db req now =
    match first_failing listed_order db req now with
    | Some f => Return (failure_response f)
    | None => Next (sid, stu)
    end.
Proof.
  intros Hsid Htok Hstu.
  unfold checkin_checks. rewrite Hsid, Htok, Hstu. simpl.
  apply given_some in Hsid as [Hsid _].
  apply given_some in Htok as [Htok _].
  apply given_some in Hstu as [Hstu _].
  unfold first_failing, listed_order, fails, session_of, student_of,
    record_of, same_token.
  rewrite Hsid, Htok, Hstu. simpl.
  destruct (Sql.session_by_id db sid) as [s|]; simpl; [|reflexivity].
  destruct (s_token s =? tok)%string; simpl; [|reflexivity].
  destruct (Js.gt now (s_expires_at s)); simpl; [reflexivity|].
  destruct (Sql.user_by_id_role db stu student); simpl; [|reflexivity].
  destruct (Sql.attendance_of db sid stu); reflexivity.
Qed.

(** A request that lacks a parameter is answered before any check. *)
Lemma checkin_checks_missing db req now :
  Js.given (sessionId req) = None \/ Js.given (token req) = None
    \/ Js.given (studentId req) = None ->
  checkin_checks db req now = Return (reply 400 (JsonError "Missing params")).
Proof.
  unfold checkin_checks.
  destruct (Js.given (sessionId req)); simpl; [|reflexivity].
  destruct (Js.given (token req)); simpl; [|reflexivity].
  destruct (Js.given (studentId req)); simpl; [|reflexivity].
  intros [H|[H|H]]; discriminate.
Qed.

(** C1 (as amended).  A check-in request that carries a session id, a
    token and a student id is answered by the first check, in the order
    SessionNotFound, InvalidToken, SessionExpired, StudentNotFound,
    DuplicateCheckin, that it fails, the database staying as it was, and
    reaches the insertion only when it fails none; a token that differs
    from the stored one is reported as InvalidToken whether the session
    has expired or not.  A request that lacks one of the three parameters
    is answered 400 "Missing params" whatever the checks would say. *)
Theorem checkin_reports_first_failing_check db req now now' recId :
  match Js.given (sessionId req), Js.given (token req),
        Js.given (studentId req) with
  | Some sid, Some tok, Some stu =>
      match first_failing listed_order db req now with
      | Some f => checkin db req now now' recId = (db, failure_response f)
      | None =>
          checkin db req now now' recId = checkin_insert db sid stu now' recId
      end
      /\ (forall s, Sql.session_by_id db sid = Some s -> s_token s <> tok ->
            checkin db req now now' recId
              = (db, reply 403 (JsonError "Invalid token")))
  | _, _, _ =>
      checkin db req now now' recId
        = (db, reply 400 (JsonError "Missing params"))
  end.
Proof.
  destruct (Js.given (sessionId req)) as [sid|] eqn:Hsid;
    [destruct (Js.given (token req)) as [tok|] eqn:Htok;
     [destruct (Js.given (studentId req)) as [stu|] eqn:Hstu|]|];
    try (unfold checkin; rewrite checkin_checks_missing; [reflexivity|];
         rewrite ?Hsid, ?Htok, ?Hstu; auto).
  pose proof (checkin_checks_first_failing db req now sid tok stu
                Hsid Htok Hstu) as Hchecks.
  split.
  - unfold checkin. rewrite Hchecks.
    destruct (first_failing listed_order db req now); reflexivity.
  - intros s Hs Hneq. unfold checkin, checkin_checks.
    rewrite Hsid, Htok, Hstu. simpl. rewrite Hs. simpl.
    destruct (String.eqb_spec (s_token s) tok); [contradiction|reflexivity].
Qed.

(** The demo session has expired at time 1801001 and the request carries
    a wrong token: InvalidToken, and the database is untouched. *)
Lemma checkin_reports_first_failing_check_witness :
  checkin demo_db
    (mkCheckinRequest (Some demo_session) (Some "ffffffff") (Some "stu1"))
    1801001 1801002 "rec-1"
  = (demo_db, reply 403 (JsonError "Invalid token")).
Proof.
  refine (proj2 (checkin_reports_first_failing_check demo_db
            (mkCheckinRequest (Some demo_session) (Some "ffffffff") (Some "stu1"))
            1801001 1801002 "rec-1")
          (mkSession demo_session "sec101" "a1b2c3d4" 1000 (Some 1801000))
          eq_refl _).
  simpl. discriminate.
Defined.

(** C1 (as stated) fails on a request without a token against the expired
    demo session: the first failing check is InvalidToken, while the
    handler answers 400 "Missing params". *)
Lemma checkin_without_token_is_missing_params :
  first_failing listed_order demo_db
    (mkCheckinRequest (Some demo_session) None (Some "stu1")) 1801001
  = Some InvalidToken
  /\ checkin demo_db
       (mkCheckinRequest (Some demo_session) None (Some "stu1"))
       1801001 1801002 "rec-1"
     = (demo_db, reply 400 (JsonError "Missing params")).
Proof.
  split; reflexivity.
Qed.

(** ** Expiry *)

(** C2 (as amended).  For a check-in request that carries its three
    parameters, names an existing session and gives its token, the
    handler reports SessionExpired exactly when the current time is
    strictly greater than the session's [expires_at]; at [expires_at]
    itself the expiry check passes. *)
Theorem checkin_expired_strictly_after_expires_at
    db req now now' recId sid tok stu s e :
  Js.given (sessionId req) = Some sid ->
  Js.given (token req) = Some tok ->
  Js.given (studentId req) = Some stu ->
  Sql.session_by_id db sid = Some s ->
  s_token s = tok ->
  s_expires_at s = Some e ->
  (e < now ->
     checkin db req now now' recId
       = (db, reply 403 (JsonError "Session expired")))
  /\ (now <= e ->
        snd (checkin db req now now' recId)
          <> reply 403 (JsonError "Session expired")).
Proof.
  intros Hsid Htok Hstu Hs Ht He.
  unfold checkin, checkin_checks. rewrite Hsid, Htok, Hstu. simpl.
  rewrite Hs. simpl. rewrite Ht, String.eqb_refl, He. simpl.
  split; intros Hnow.
  - apply Z.ltb_lt in Hnow. rewrite Hnow. reflexivity.
  - apply Z.ltb_ge in Hnow. rewrite Hnow. simpl.
    destruct (Sql.user_by_id_role db stu student); simpl; [|discriminate].
    destruct (Sql.attendance_of db sid stu); simpl; [discriminate|].
    unfold checkin_insert. destruct (Sql.insert _ _ _); simpl; discriminate.
Qed.

(** One millisecond after the expiry of the demo session. *)
Lemma checkin_expired_strictly_after_expires_at_witness :
  checkin demo_db demo_checkin 1801001 1801002 "rec-1"
  = (demo_db, reply 403 (JsonError "Session expired")).
Proof.
  refine (proj1 (checkin_expired_strictly_after_expires_at demo_db demo_checkin
            1801001 1801002 "rec-1" demo_session "a1b2c3d4" "stu1"
            (mkSession demo_session "sec101" "a1b2c3d4" 1000 (Some 1801000))
            1801000 eq_refl eq_refl eq_refl eq_refl eq_refl eq_refl) _).
  lia.
Defined.

(** C2 (as stated) fails when the current time equals [expires_at]: the
    demo session expires at 1801000 and a check-in at 1801000 succeeds. *)
Lemma checkin_at_expires_at_succeeds :
  option_map s_expires_at (Sql.session_by_id demo_db demo_session)
  = Some (Some 1801000)
  /\ checkin demo_db demo_checkin 1801000 1801000 "rec-1"
     = (set_attendance demo_db
          [mkAttendance "rec-1" demo_session "stu1" "present" 1801000 "qr"],
        reply 200 JsonCheckedIn).
Proof.
  split; reflexivity.
Qed.

(** ** Successful check-in *)

(** In a database without empty identifiers or tokens, a request that
    fails none of the five checks carries its three parameters, so that
    the guard on the parameters lets it through. *)
Lemma passing_request_carries_parameters db req now :
  well_keyed db ->
  (forall f, fails f db req now = false) ->
  exists sid tok stu,
    Js.given (sessionId req) = Some sid
    /\ Js.given (token req) = Some tok
    /\ Js.given (studentId req) = Some stu.
Proof.
  intros [Hsess Husers] Hpass.
  pose proof (Hpass SessionNotFound) as H1.
  pose proof (Hpass InvalidToken) as H2.
  pose proof (Hpass StudentNotFound) as H4.
  unfold fails, session_of, student_of, same_token in H1, H2, H4.
  destruct (sessionId req) as [sid|]; [|discriminate].
  destruct (Sql.session_by_id db sid) as [s|] eqn:Hs; [|discriminate].
  apply find_some in Hs as [Hin Hid]. apply String.eqb_eq in Hid.
  destruct (Hsess s Hin) as [Hne_id Hne_tok].
  destruct (token req) as [tok|]; [|discriminate].
  destruct (String.eqb_spec (s_token s) tok) as [Htok|]; [|discriminate].
  destruct (studentId req) as [stu|]; [|discriminate].
  destruct (Sql.user_by_id_role db stu student) as [u|] eqn:Hu; [|discriminate].
  apply find_some in Hu as [Hinu Hidu]. apply andb_prop in Hidu as [Hidu _].
  apply String.eqb_eq in Hidu. pose proof (Husers u Hinu) as Hne_u.
  exists sid, tok, stu. simpl.
  destruct (String.eqb_spec sid ""); [congruence|].
  destruct (String.eqb_spec tok ""); [congruence|].
  destruct (String.eqb_spec stu ""); [congruence|].
  auto.
Qed.

(** C5.  In a database whose identifiers and tokens are not empty, a
    check-in request that fails none of the five checks creates exactly
    one attendance record: the attendance table after the request is the
    table before it followed by one row, for the request's session and
    student, with status "present", the current timestamp and method
    "qr"; the other tables are as they were, and the handler answers 200
    with the success message.  The identifier that [uuidv4()] returns
    for the record is one no record has yet. *)
Theorem checkin_success_creates_one_record db req now now' recId :
  well_keyed db ->
  (forall f, fails f db req now = false) ->
  existsb (fun r => (a_id r =? recId)%string) (attendance db) = false ->
  exists sid stu,
    sessionId req = Some sid
    /\ studentId req = Some stu
    /\ attendance (fst (checkin db req now now' recId))
       = (attendance db
            ++ [mkAttendance recId sid stu "present" now' "qr"])%list
    /\ users (fst (checkin db req now now' recId)) = users db
    /\ sections (fst (checkin db req now now' recId)) = sections db
    /\ sessions (fst (checkin db req now now' recId)) = sessions db
    /\ snd (checkin db req now now' recId) = reply 200 JsonCheckedIn.
Proof.
  intros Hwk Hpass Hfresh.
  destruct (passing_request_carries_parameters db req now Hwk Hpass)
    as (sid & tok & stu & Hsid & Htok & Hstu).
  exists sid, stu.
  split; [now apply given_some in Hsid|].
  split; [now apply given_some in Hstu|].
  unfold checkin.
  rewrite (checkin_checks_first_failing db req now sid tok stu Hsid Htok Hstu).
  assert (first_failing listed_order db req now = None) as ->.
  { apply find_none_iff. intros f _. apply Hpass. }
  unfold checkin_insert. rewrite insert_fresh by exact Hfresh.
  repeat split.
Qed.

Lemma demo_db_well_keyed : well_keyed demo_db.
Proof.
  split; simpl.
  - intros s [<-|[]]. split; discriminate.
  - intros u [<-|[<-|[<-|[]]]]; discriminate.
Qed.

(** The demo check-in at time 2000. *)
Lemma checkin_success_creates_one_record_witness :
  let result := checkin demo_db demo_checkin 2000 2001 "rec-1" in
  exists sid stu,
    sessionId demo_checkin = Some sid
    /\ studentId demo_checkin = Some stu
    /\ attendance (fst result)
       = (attendance demo_db
            ++ [mkAttendance "rec-1" sid stu "present" 2001 "qr"])%list
    /\ users (fst result) = users demo_db
    /\ sections (fst result) = sections demo_db
    /\ sessions (fst result) = sessions demo_db
    /\ snd result = reply 200 JsonCheckedIn.
Proof.
  intros result.
  apply (checkin_success_creates_one_record demo_db demo_checkin 2000 2001
           "rec-1").
  - exact demo_db_well_keyed.
  - intros f; destruct f; reflexivity.
  - reflexivity.
Defined.

(** ** Status codes of the check-in failures *)

(** C8 (as amended).  On a request that carries its three parameters,
    the first failing check is answered without any change to the
    database: an unknown student with status 403 and the message
    "Student not found", an unknown session with status 404 and "Session
    not found", a wrong token with 403 and "Invalid token", an expired
    session with 403 and "Session expired", and a duplicate check-in
    with 409 and "Already checked in". *)
Theorem checkin_failure_status db req now now' recId sid tok stu f :
  Js.given (sessionId req) = Some sid ->
  Js.given (token req) = Some tok ->
  Js.given (studentId req) = Some stu ->
  first_failing listed_order db req now = Some f ->
  checkin db req now now' recId
  = (db,
     match f with
     | SessionNotFound => reply 404 (JsonError "Session not found")
     | InvalidToken => reply 403 (JsonError "Invalid token")
     | SessionExpired => reply 403 (JsonError "Session expired")
     | StudentNotFound => reply 403 (JsonError "Student not found")
     | DuplicateCheckin => reply 409 (JsonError "Already checked in")
     end).
Proof.
  intros Hsid Htok Hstu Hf. unfold checkin.
  rewrite (checkin_checks_first_failing db req now sid tok stu Hsid Htok Hstu), Hf.
  destruct f; reflexivity.
Qed.

(** A student id that names no user, and the demo check-in repeated. *)
Lemma checkin_failure_status_witness :
  checkin demo_db
    (mkCheckinRequest (Some demo_session) (Some "a1b2c3d4") (Some "nobody"))
    2000 2001 "rec-1"
  = (demo_db, reply 403 (JsonError "Student not found"))
  /\ checkin demo_db_checked_in demo_checkin 3000 3001 "rec-2"
     = (demo_db_checked_in, reply 409 (JsonError "Already checked in")).
Proof.
  split.
  - exact (checkin_failure_status demo_db
             (mkCheckinRequest (Some demo_session) (Some "a1b2c3d4")
                               (Some "nobody"))
             2000 2001 "rec-1" demo_session "a1b2c3d4" "nobody" StudentNotFound
             eq_refl eq_refl eq_refl eq_refl).
  - exact (checkin_failure_status demo_db_checked_in demo_checkin
             3000 3001 "rec-2" demo_session "a1b2c3d4" "stu1" DuplicateCheckin
             eq_refl eq_refl eq_refl eq_refl).
Defined.

(** C8 (as stated) fails for a student id that resolves to no user: the
    handler answers 403, neither 404 nor 400. *)
Lemma checkin_unknown_student_is_403 :
  Sql.user_by_id_role demo_db "nobody" student = None
  /\ checkin demo_db
       (mkCheckinRequest (Some demo_session) (Some "a1b2c3d4") (Some "nobody"))
       2000 2001 "rec-1"
     = (demo_db, reply 403 (JsonError "Student not found")).
Proof.
  split; reflexivity.
Qed.

(** ** What the handlers change *)

(** A handler that answered without writing: replace its database by the
    one it started from. *)
Tactic Notation "unchanged" hyp(H) :=
  match type of H with
  | fst ?c = _ => destruct c; simpl in *; subst
  end.

(** What the validation has established when it lets the request through. *)
Lemma checkin_checks_next db req now sid stu :
  checkin_checks db req now = Next (sid, stu) ->
  Js.given (sessionId req) = Some sid
  /\ Js.given (studentId req) = Some stu
  /\ (exists s, Sql.session_by_id db sid = Some s
                /\ Js.given (token req) = Some (s_token s)
                /\ Js.gt now (s_expires_at s) = false)
  /\ (exists u, Sql.user_by_id_role db stu student = Some u)
  /\ Sql.attendance_of db sid stu = None.
Proof.
  unfold checkin_checks.
  destruct (Js.given (sessionId req)) as [sid'|]; simpl; [|discriminate].
  destruct (Js.given (token req)) as [tok|]; simpl; [|discriminate].
  destruct (Js.given (studentId req)) as [stu'|]; simpl; [|discriminate].
  destruct (Sql.session_by_id db sid') as [s|] eqn:Hs; simpl; [|discriminate].
  destruct (String.eqb_spec (s_token s) tok) as [Ht|]; simpl; [|discriminate].
  destruct (Js.gt now (s_expires_at s)) eqn:Hgt; simpl; [discriminate|].
  destruct (Sql.user_by_id_role db stu' student) as [u|] eqn:Hu; simpl;
    [|discriminate].
  destruct (Sql.attendance_of db sid' stu') eqn:Ha; simpl; [discriminate|].
  intros [= <- <-]. subst tok. repeat split; eauto.
Qed.

(** Every response of the validation itself is an error. *)
Lemma checkin_checks_return db req now r :
  checkin_checks db req now = Return r -> status r <> 200.
Proof.
  unfold checkin_checks.
  destruct (Js.given (sessionId req)) as [sid|]; simpl;
    [|intros [= <-]; discriminate].
  destruct (Js.given (token req)) as [tok|]; simpl;
    [|intros [= <-]; discriminate].
  destruct (Js.given (studentId req)) as [stu|]; simpl;
    [|intros [= <-]; discriminate].
  destruct (Sql.session_by_id db sid) as [s|]; simpl;
    [|intros [= <-]; discriminate].
  destruct (s_token s =? tok)%string; simpl; [|intros [= <-]; discriminate].
  destruct (Js.gt now (s_expires_at s)); simpl; [intros [= <-]; discriminate|].
  destruct (Sql.user_by_id_role db stu student); simpl;
    [|intros [= <-]; discriminate].
  destruct (Sql.attendance_of db sid stu); simpl;
    [intros [= <-]|]; discriminate.
Qed.

(** The two ends of the handler: the database is untouched and the
    response is an error, or one record was appended and the response is
    the success message. *)
Lemma checkin_cases db req now now' recId :
  (fst (checkin db req now now' recId) = db
   /\ status (snd (checkin db req now now' recId)) <> 200)
  \/ (exists sid stu,
        checkin_checks db req now = Next (sid, stu)
        /\ checkin db req now now' recId
           = (set_attendance db
                (attendance db
                   ++ [mkAttendance recId sid stu "present" now' "qr"])%list,
              reply 200 JsonCheckedIn)).
Proof.
  unfold checkin.
  destruct (checkin_checks db req now) as [r|[sid stu]] eqn:Hc.
  - left. split; [reflexivity|]. simpl. eapply checkin_checks_return; eauto.
  - unfold checkin_insert.
    destruct (Sql.insert a_id _ (attendance db)) as [rows|] eqn:Hi.
    + right. exists sid, stu. apply insert_appends in Hi. subst rows. auto.
    + left. split; [reflexivity|]. simpl. discriminate.
Qed.

Lemma initDb_keeps_sessions db : sessions (initDb db) = sessions db.
Proof.
  unfold initDb, seeded.
  destruct (users db); [|reflexivity].
  repeat match goal with
         | |- context [match ?x with Some _ => _ | None => _ end] =>
             destruct x; simpl
         end; reflexivity.
Qed.

Lemma initDb_keeps_attendance db : attendance (initDb db) = attendance db.
Proof.
  unfold initDb, seeded.
  destruct (users db); [|reflexivity].
  repeat match goal with
         | |- context [match ?x with Some _ => _ | None => _ end] =>
             destruct x; simpl
         end; reflexivity.
Qed.

Lemma initDb_seeded_once db : users db <> [] -> initDb db = db.
Proof.
  unfold initDb. destruct (users db); [congruence | reflexivity].
Qed.

Lemma faculty_add_cases db id name :
  fst (faculty_add db id name) = db
  \/ exists i n, fst (faculty_add db id name)
                 = set_users db (users db ++ [mkUser i n faculty])%list.
Proof.
  unfold faculty_add.
  destruct (Js.given id) as [i|]; [|now left].
  destruct (Js.given name) as [n|]; [|now left].
  destruct (Sql.insert u_id _ (users db)) as [us|] eqn:Hi; [|now left].
  right. exists i, n. apply insert_appends in Hi. now subst us.
Qed.

Lemma create_session_cases db req u1 u2 now :
  (fst (create_session db req u1 u2 now) = db
   /\ status (snd (create_session db req u1 u2 now)) <> 200)
  \/ (exists fid sec,
        session_checks db req = Next (fid, sec)
        /\ create_session db req u1 u2 now
           = (set_sessions db
                (sessions db
                   ++ [mkSession u1 sec (Js.split_dash_head u2) now
                                 (expiry now (durationMinutes req))])%list,
              reply 200
                (JsonSession u1 (Js.split_dash_head u2)
                   (expiry now (durationMinutes req))
                   (checkin_url req u1 (Js.split_dash_head u2))))).
Proof.
  unfold create_session.
  destruct (session_checks db req) as [r|[fid sec]] eqn:Hc.
  - left. split; [reflexivity|]. simpl.
    revert Hc. unfold session_checks.
    destruct (Js.given (facultyId req)) as [f|]; simpl;
      [|intros [= <-]; discriminate].
    destruct (Js.given (sectionId req)) as [s|]; simpl;
      [|intros [= <-]; discriminate].
    destruct (Sql.user_by_id_role db f faculty); simpl;
      [|intros [= <-]; discriminate].
    destruct (Sql.section_by_id db s); simpl;
      [|intros [= <-]]; discriminate.
  - destruct (Sql.insert s_id _ (sessions db)) as [ss|] eqn:Hi.
    + right. exists fid, sec. apply insert_appends in Hi. subst ss. auto.
    + left. split; [reflexivity|]. simpl. discriminate.
Qed.

(** No request removes or rewrites an attendance row: the table after an
    event is the table before it, followed by at most the record of a
    check-in that passed the validation. *)
Lemma after_attendance db e :
  attendance (after db e) = attendance db
  \/ exists req now now' recId sid stu,
       e = Checkin req now now' recId
       /\ checkin_checks db req now = Next (sid, stu)
       /\ attendance (after db e)
          = (attendance db
               ++ [mkAttendance recId sid stu "present" now' "qr"])%list.
Proof.
  destruct e as [ |id name|id|req u1 u2 now|req now now' recId|sec| | | |route];
    unfold after; simpl; try (left; reflexivity).
  - left. apply initDb_keeps_attendance.
  - left. destruct (faculty_add_cases db id name) as [H|(i & n & H)];
      unchanged H; reflexivity.
  - left.
    destruct (create_session_cases db req u1 u2 now) as [[H _]|(f & s & _ & H)].
    + unchanged H. reflexivity.
    + rewrite H. reflexivity.
  - destruct (checkin_cases db req now now' recId) as [[H _]|(sid & stu & Hc & H)].
    + left. unchanged H. reflexivity.
    + right. exists req, now, now', recId, sid, stu. rewrite H. auto.
Qed.

(** The system keeps its identifiers and tokens non-empty. *)
Lemma well_keyed_after db e :
  generated_ids_nonempty e -> well_keyed db -> well_keyed (after db e).
Proof.
  intros He [Hsess Husers].
  destruct e as [ |id name|id|req u1 u2 now|req now now' recId|sec| | | |route];
    unfold after; simpl; try (split; assumption).
  - split; [now rewrite initDb_keeps_sessions|].
    unfold initDb, seeded. destruct (users db) eqn:Hu; [|now rewrite Hu].
    unfold Sql.insert. simpl.
    destruct (existsb _ (sections db)); simpl;
      intros u [<-|[<-|[<-|[]]]]; discriminate.
  - unfold faculty_add.
    destruct (Js.given id) as [i|] eqn:Hi; [|split; assumption].
    destruct (Js.given name) as [n|]; [|split; assumption].
    destruct (Sql.insert u_id _ (users db)) as [us|] eqn:Hins;
      [|split; assumption].
    apply insert_appends in Hins. subst us. split; [assumption|]. simpl.
    intros u Hu. apply in_app_or in Hu as [Hu|[<-|[]]]; [now apply Husers|].
    simpl. now apply given_some in Hi.
  - split; [assumption|]. simpl. intros u Hu. apply filter_In in Hu.
    now apply Husers.
  - destruct (create_session_cases db req u1 u2 now) as [[H _]|(f & s & _ & H)].
    + unchanged H. split; assumption.
    + rewrite H. simpl. split; [|assumption]. simpl.
      intros x Hx. apply in_app_or in Hx as [Hx|[<-|[]]]; [now apply Hsess|].
      exact He.
  - destruct (checkin_cases db req now now' recId) as [[H _]|(sid & stu & _ & H)].
    + unchanged H. split; assumption.
    + rewrite H. split; assumption.
Qed.

(** ** One record per session and student *)

Lemma records_of_pair_append db row sid stu :
  records_of_pair (set_attendance db (attendance db ++ [row])%list) sid stu
  = (records_of_pair db sid stu
     + if (a_session_id row =? sid)%string && (a_student_id row =? stu)%string
       then 1 else 0)%nat.
Proof.
  unfold records_of_pair. simpl. rewrite filter_app, length_app. simpl.
  now destruct ((a_session_id row =? sid)%string && (a_student_id row =? stu)%string).
Qed.

Lemma records_of_pair_attendance db db' sid stu :
  attendance db' = attendance db ->
  records_of_pair db' sid stu = records_of_pair db sid stu.
Proof.
  unfold records_of_pair. now intros ->.
Qed.

Lemma at_most_one_record_after db e :
  at_most_one_record db -> at_most_one_record (after db e).
Proof.
  intros Hinv sid stu.
  destruct (after_attendance db e)
    as [H|(req & now & now' & recId & sid' & stu' & _ & Hc & H)].
  - rewrite (records_of_pair_attendance db _ sid stu H). apply Hinv.
  - apply checkin_checks_next in Hc as (_ & _ & _ & _ & Hnone).
    unfold records_of_pair. rewrite H.
    rewrite filter_app, length_app. simpl.
    destruct (String.eqb_spec sid' sid) as [->|]; simpl;
      [|rewrite Nat.add_0_r; apply Hinv].
    destruct (String.eqb_spec stu' stu) as [->|]; simpl;
      [|rewrite Nat.add_0_r; apply Hinv].
    unfold Sql.attendance_of in Hnone. apply find_none_filter in Hnone.
    rewrite Hnone. simpl. lia.
Qed.

Lemma at_most_one_record_run es : forall db,
  at_most_one_record db -> at_most_one_record (run db es).
Proof.
  induction es as [|e es IH]; intros db Hinv; simpl; [exact Hinv|].
  apply IH. now apply at_most_one_record_after.
Qed.

Lemma lookups_kept_refl db : lookups_kept db db.
Proof. split; auto. Qed.

Lemma lookups_kept_trans db1 db2 db3 :
  lookups_kept db1 db2 -> lookups_kept db2 db3 -> lookups_kept db1 db3.
Proof.
  intros [S1 U1 R1] [S2 U2 R2]. split; eauto.
Qed.

Lemma lookups_kept_after db e : lookups_kept db (after db e).
Proof.
  destruct e as [ |id name|id|req u1 u2 now|req now now' recId|sec| | | |route];
    unfold after; simpl; try apply lookups_kept_refl.
  - split; unfold Sql.session_by_id, Sql.attendance_of.
    + now rewrite initDb_keeps_sessions.
    + intros stu u Hu. rewrite initDb_seeded_once; [exact Hu|].
      unfold Sql.user_by_id_role in Hu. intros Hnil. rewrite Hnil in Hu.
      discriminate.
    + now rewrite initDb_keeps_attendance.
  - destruct (faculty_add_cases db id name) as [H|(i & n & H)];
      unchanged H; [apply lookups_kept_refl|].
    split; auto. intros stu u. apply find_app_some.
  - split; auto. intros stu u Hu.
    unfold Sql.user_by_id_role, Sql.delete_faculty in *. simpl.
    rewrite find_filter_keeps; [exact Hu|].
    intros x Hx. apply andb_prop in Hx as [_ Hrole].
    destruct (u_role x); [|discriminate].
    now rewrite andb_false_r.
  - destruct (create_session_cases db req u1 u2 now) as [[H _]|(f & s & _ & H)].
    + unchanged H. apply lookups_kept_refl.
    + rewrite H. simpl. split; auto. intros sid x. apply find_app_some.
  - destruct (checkin_cases db req now now' recId) as [[H _]|(sid & stu & _ & H)].
    + unchanged H. apply lookups_kept_refl.
    + rewrite H. simpl. split; auto. intros sid' stu' a. apply find_app_some.
Qed.

Lemma lookups_kept_run es : forall db, lookups_kept db (run db es).
Proof.
  induction es as [|e es IH]; intros db; simpl; [apply lookups_kept_refl|].
  eapply lookups_kept_trans; [apply lookups_kept_after | apply IH].
Qed.

(** C3 (as amended).  With the requests served one at a time, no
    operation of the system leads from a database with at most one
    attendance record per (session, student) pair to one with more, so no
    sequence of requests on the empty database ever does.  After a
    successful check-in, and whatever requests are served in between, the
    same check-in request does not succeed again and changes nothing: it
    is answered DuplicateCheckin while the current time is not past the
    session's [expires_at], and SessionExpired once it is. *)
Theorem one_record_per_session_and_student :
  (forall db e, at_most_one_record db -> at_most_one_record (after db e))
  /\ (forall es, at_most_one_record (run empty_db es))
  /\ (forall db req now now' recId db1 es now2 now2' recId2,
        checkin db req now now' recId = (db1, reply 200 JsonCheckedIn) ->
        exists s,
          session_of db req = Some s
          /\ checkin (run db1 es) req now2 now2' recId2
             = (run db1 es,
                failure_response
                  (if Js.gt now2 (s_expires_at s) then SessionExpired
                   else DuplicateCheckin))).
Proof.
  split; [exact at_most_one_record_after|].
  split.
  { intros es. apply at_most_one_record_run. intros sid stu.
    unfold records_of_pair. simpl. lia. }
  intros db req now now' recId db1 es now2 now2' recId2 Hok.
  destruct (checkin_cases db req now now' recId)
    as [[_ Hst]|(sid & stu & Hc & H)].
  { rewrite Hok in Hst. simpl in Hst. congruence. }
  rewrite H in Hok. injection Hok as Hdb1.
  apply checkin_checks_next in Hc
    as (Hsid & Hstu & (s & Hs & Htok & _) & (u & Hu) & _).
  exists s. split.
  { unfold session_of. apply given_some in Hsid as [-> _]. exact Hs. }
  assert (lookups_kept db (run db1 es)) as [KS KU KR].
  { eapply lookups_kept_trans; [|apply lookups_kept_run].
    subst db1. split; auto. intros sid' stu' a. apply find_app_some. }
  assert (exists a, Sql.attendance_of (run db1 es) sid stu = Some a) as [a Ha].
  { destruct (lookups_kept_run es db1) as [_ _ KR1].
    assert (exists a, Sql.attendance_of db1 sid stu = Some a) as [a Ha].
    { subst db1. unfold Sql.attendance_of. simpl.
      apply find_app_hit. simpl. now rewrite !String.eqb_refl. }
    exists a. now apply KR1. }
  unfold checkin, checkin_checks. rewrite Hsid, Htok, Hstu. simpl.
  rewrite (KS _ _ Hs). simpl. rewrite String.eqb_refl. simpl.
  destruct (Js.gt now2 (s_expires_at s)); simpl; [reflexivity|].
  rewrite (KU _ _ Hu). simpl. rewrite Ha. reflexivity.
Qed.

(** The demo check-in repeated at time 3000, after a faculty user was
    added and removed again. *)
Lemma one_record_per_session_and_student_witness :
  exists s,
    session_of demo_db demo_checkin = Some s
    /\ checkin
         (run demo_db_checked_in
            [FacultyAdd (Some "faculty2") (Some "Prof. Dan");
             FacultyDelete "faculty2"])
         demo_checkin 3000 3001 "rec-2"
       = (run demo_db_checked_in
            [FacultyAdd (Some "faculty2") (Some "Prof. Dan");
             FacultyDelete "faculty2"],
          failure_response
            (if Js.gt 3000 (s_expires_at s) then SessionExpired
             else DuplicateCheckin)).
Proof.
  exact (proj2 (proj2 one_record_per_session_and_student)
           demo_db demo_checkin 2000 2001 "rec-1" demo_db_checked_in
           [FacultyAdd (Some "faculty2") (Some "Prof. Dan");
            FacultyDelete "faculty2"]
           3000 3001 "rec-2" eq_refl).
Defined.

(** C3 (as stated) fails once the session has expired: the demo check-in
    succeeds at time 2000, and the same request at time 1801001 is
    answered "Session expired", not "Already checked in". *)
Lemma repeated_checkin_after_expiry_is_session_expired :
  checkin demo_db demo_checkin 2000 2001 "rec-1"
  = (demo_db_checked_in, reply 200 JsonCheckedIn)
  /\ checkin demo_db_checked_in demo_checkin 1801001 1801002 "rec-2"
     = (demo_db_checked_in, reply 403 (JsonError "Session expired")).
Proof.
  split; reflexivity.
Qed.

(** ** Session manager *)

(** [parseInt] on the strings a form field can send. *)
Lemma parseInt_string_examples :
  Js.parseInt_string "45" = Some 45
  /\ Js.parseInt_string "0" = Some 0
  /\ Js.parseInt_string " 12px" = Some 12
  /\ Js.parseInt_string "-3" = Some (-3)
  /\ Js.parseInt_string "1.5" = Some 1
  /\ Js.parseInt_string "abc" = None
  /\ Js.parseInt_string "-" = None.
Proof.
  repeat split; reflexivity.
Qed.

(** An integer below 2^53 in magnitude is a binary64 value. *)
Lemma to_double_exact z :
  Z.abs z < 9007199254740992 -> Js.to_double z = z.
Proof.
  intros H. unfold Js.to_double.
  assert (Hk : (Z.log2 (Z.abs z) - 52 <=? 0) = true).
  { apply Z.leb_le.
    destruct (Z.eq_dec (Z.abs z) 0) as [-> | Hz]; [discriminate|].
    assert (Z.log2 (Z.abs z) < 53); [|lia].
    apply Z.log2_lt_pow2; [lia|exact H]. }
  now rewrite Hk.
Qed.

(** Such an integer prints in plain digits, which [parseInt] reads back. *)
Lemma parseInt_exact d :
  Z.abs d < 9007199254740992 -> Js.parseInt (Js.Num d) = Some d.
Proof.
  intros H. unfold Js.parseInt. cbv zeta.
  rewrite (to_double_exact d H).
  assert (Hlt : (Z.abs d <? 10 ^ 21) = true).
  { apply Z.ltb_lt. change (10 ^ 21) with 1000000000000000000000. lia. }
  now rewrite Hlt.
Qed.

(** Line 117 is exact while [Date.now()] is a time value and the duration
    is at most six thousand million minutes. *)
Lemma expiry_exact now d :
  Z.abs now <= 8640000000000000 ->
  Z.abs d <= 6000000000 ->
  Js.add now (Js.mul (Js.mul (Some d) 60) 1000) = Some (now + d * 60000).
Proof.
  intros Hn Hd. unfold Js.add, Js.mul. cbn [option_map].
  rewrite (to_double_exact (d * 60)) by lia.
  rewrite (to_double_exact (d * 60 * 1000)) by lia.
  rewrite (to_double_exact (now + d * 60 * 1000)) by lia.
  assert (Hfinite : (Z.abs (d * 60 * 1000) =? Js.infinity) = false).
  { apply Z.eqb_neq. unfold Js.infinity.
    assert (2 ^ 53 <= 2 ^ 1024) by (apply Z.pow_le_mono_r; lia).
    change (2 ^ 53) with 9007199254740992 in *. lia. }
  rewrite Hfinite. f_equal. lia.
Qed.

(** The number 0 is replaced by the default; the string ["0"] is not. *)
Lemma expiry_of_zero now :
  Z.abs now <= 8640000000000000 ->
  expiry now (Js.Num 0) = Some (now + 1800000)
  /\ expiry now (Js.Str "0") = Some now.
Proof.
  intros Hn. split; unfold expiry.
  - change (Js.parseInt (Js.or_else (Js.Num 0) (Js.Num 30))) with (Some 30).
    rewrite expiry_exact by (try assumption; simpl; lia). f_equal.
  - change (Js.parseInt (Js.or_else (Js.Str "0") (Js.Num 30))) with (Some 0).
    rewrite expiry_exact by (try assumption; simpl; lia). f_equal. lia.
Qed.

(** What line 117 computes beyond the exact range, for a session
    started at time 1000: a number that is not an integer is cut at its
    decimal point (1.5 gives one minute, 0.5 none); a number from 10^21
    on is read as the first digit of its exponent notation (10^21 and
    10^23, which prints as ["1e+23"], give one minute, 2*10^22 two); the
    sum is rounded to binary64; a number too large for binary64 is an
    infinity, in which [parseInt] reads no number; an array is read as
    its elements joined, an object not at all; a string of digits is
    read as the binary64 value nearest to it. *)
Theorem expiry_beyond_the_exact_range :
  expiry 1000 (Js.Frac "1.5") = Some 61000
  /\ expiry 1000 (Js.Frac "0.5") = Some 1000
  /\ expiry 1000 (Js.Num (10 ^ 21)) = Some 61000
  /\ expiry 1000 (Js.Num (10 ^ 23)) = Some 61000
  /\ expiry 1000 (Js.Num (2 * 10 ^ 22)) = Some 121000
  /\ expiry 1000 (Js.Num 150119987579017) = Some 9007199254741020672
  /\ expiry 1000 (Js.Num (10 ^ 400)) = None
  /\ expiry 1000 (Js.Obj "45") = Some 2701000
  /\ expiry 1000 (Js.Obj "[object Object]") = None
  /\ Js.parseInt_string "9007199254740993" = Some 9007199254740992
  /\ Js.parseInt (Js.Num 9007199254740993) = Some 9007199254740992.
Proof.
  repeat split; vm_compute; reflexivity.
Qed.

Lemma expiry_cases now v :
  Z.abs now <= 8640000000000000 ->
  match v with
  | Js.Undefined | Js.Null | Js.Bool false | Js.Num 0 | Js.Str "" =>
      expiry now v = Some (now + 30 * 60000)
  | Js.Bool true => expiry now v = None
  | Js.Num d => Z.abs d <= 6000000000 -> expiry now v = Some (now + d * 60000)
  | Js.Str s | Js.Frac s | Js.Obj s =>
      match Js.parseInt_string s with
      | Some d =>
          Z.abs d <= 6000000000 -> expiry now v = Some (now + d * 60000)
      | None => expiry now v = None
      end
  end.
Proof.
  intros Hn.
  assert (H30 : Js.add now (Js.mul (Js.mul (Some 30) 60) 1000)
                = Some (now + 30 * 60000)).
  { apply expiry_exact; [assumption|simpl; lia]. }
  assert (Hs : forall s,
             match Js.parseInt_string s with
             | Some d =>
                 Z.abs d <= 6000000000 ->
                 Js.add now (Js.mul (Js.mul (Js.parseInt_string s) 60) 1000)
                 = Some (now + d * 60000)
             | None =>
                 Js.add now (Js.mul (Js.mul (Js.parseInt_string s) 60) 1000)
                 = None
             end).
  { intros s. destruct (Js.parseInt_string s) as [d|]; [|reflexivity].
    intros Hd. now apply expiry_exact. }
  unfold expiry.
  destruct v as [ | |[|]|d|s|s|s]; try exact H30; try reflexivity;
    try exact (Hs s).
  - destruct (Z.eq_dec d 0) as [-> | Hd0]; [exact H30|].
    assert (Hor : Js.or_else (Js.Num d) (Js.Num 30) = Js.Num d).
    { unfold Js.or_else, Js.truthy.
      destruct (Z.eqb_spec d 0); [contradiction|reflexivity]. }
    rewrite Hor.
    assert (Hgoal : Z.abs d <= 6000000000 ->
                    Js.add now (Js.mul (Js.mul (Js.parseInt (Js.Num d)) 60) 1000)
                    = Some (now + d * 60000)).
    { intros Hd. rewrite parseInt_exact by lia. now apply expiry_exact. }
    destruct d; [contradiction| |]; exact Hgoal.
  - destruct s as [|c s]; [exact H30|]. exact (Hs (String c s)).
Qed.

(** C4 (as amended).  Every session the session manager creates is
    appended with [start_at] the current time and with the [expires_at]
    that line 117 computes in binary64 arithmetic, and the response
    carries the same value.  With [Date.now()] a time value, that is
    exactly [start_at + d*60000], where [d] is 30 when the duration is
    not supplied or is falsy (the number 0, [null], [false], the empty
    string), the duration itself when it is an integer other than 0 of
    magnitude at most 6000000000, and the integer that [parseInt] reads
    from the string the duration is or converts to (a non-empty string,
    a number that is not an integer, an array or an object) when that
    integer is of magnitude at most 6000000000; where [parseInt] reads
    no number ([NaN]), [expires_at] is stored as NULL. *)
Theorem created_session_expires_at db req u1 u2 now db' r :
  create_session db req u1 u2 now = (db', r) ->
  status r = 200 ->
  Z.abs now <= 8640000000000000 ->
  let expires := expiry now (durationMinutes req) in
  exists sec,
    Js.given (sectionId req) = Some sec
    /\ sessions db'
       = (sessions db
            ++ [mkSession u1 sec (Js.split_dash_head u2) now expires])%list
    /\ content r
       = JsonSession u1 (Js.split_dash_head u2) expires
           (checkin_url req u1 (Js.split_dash_head u2))
    /\ match durationMinutes req with
       | Js.Undefined | Js.Null | Js.Bool false | Js.Num 0 | Js.Str "" =>
           expires = Some (now + 30 * 60000)
       | Js.Bool true => expires = None
       | Js.Num d =>
           Z.abs d <= 6000000000 -> expires = Some (now + d * 60000)
       | Js.Str s | Js.Frac s | Js.Obj s =>
           match Js.parseInt_string s with
           | Some d =>
               Z.abs d <= 6000000000 -> expires = Some (now + d * 60000)
           | None => expires = None
           end
       end.
Proof.
  intros Hc Hst Hn expires.
  destruct (create_session_cases db req u1 u2 now)
    as [[_ Hbad]|(fid & sec & Hchk & H)].
  { rewrite Hc in Hbad. contradiction. }
  rewrite H in Hc. injection Hc as <- <-.
  exists sec. cbn [sessions set_sessions content].
  split; [|split; [reflexivity|split; [reflexivity|]]].
  - revert Hchk. unfold session_checks.
    destruct (Js.given (facultyId req)); simpl; [|discriminate].
    destruct (Js.given (sectionId req)); simpl; [|discriminate].
    destruct (Sql.user_by_id_role db s faculty); simpl; [|discriminate].
    destruct (Sql.section_by_id db s0); simpl; [|discriminate].
    now intros [= _ <-].
  - exact (expiry_cases now (durationMinutes req) Hn).
Qed.

(** A 45-minute session requested at time 1000 on the seeded database,
    and the same request with the duration 1.5, read as one minute. *)
Lemma created_session_expires_at_witness :
  let req := mkSessionRequest (Some "faculty1") (Some "sec101") (Js.Num 45)
               "http" "localhost:3001" in
  let req' := mkSessionRequest (Some "faculty1") (Some "sec101")
                (Js.Frac "1.5") "http" "localhost:3001" in
  let u1 := "0b6f7a1e-5c1d-4e0a-9d56-3f2a7c8e9b10" in
  let u2 := "a1b2c3d4-1111-4222-8333-444455556666" in
  let result := create_session (initDb empty_db) req u1 u2 1000 in
  let result' := create_session (initDb empty_db) req' u1 u2 1000 in
  sessions (fst result)
  = (sessions (initDb empty_db)
       ++ [mkSession u1 "sec101" "a1b2c3d4" 1000 (Some (1000 + 45 * 60000))])%list
  /\ content (snd result)
     = JsonSession u1 "a1b2c3d4" (Some (1000 + 45 * 60000))
         (checkin_url req u1 "a1b2c3d4")
  /\ sessions (fst result')
     = (sessions (initDb empty_db)
          ++ [mkSession u1 "sec101" "a1b2c3d4" 1000 (Some (1000 + 1 * 60000))])%list.
Proof.
  intros req req' u1 u2 result result'.
  destruct (created_session_expires_at (initDb empty_db) req u1 u2 1000
              (fst result) (snd result) eq_refl eq_refl)
    as (sec & Hsec & Hs & Hr & He); [simpl; lia|].
  destruct (created_session_expires_at (initDb empty_db) req' u1 u2 1000
              (fst result') (snd result') eq_refl eq_refl)
    as (sec' & Hsec' & Hs' & _ & He'); [simpl; lia|].
  injection Hsec as <-. injection Hsec' as <-.
  assert (E : expiry 1000 (durationMinutes req) = Some (1000 + 45 * 60000)).
  { refine ((He : Z.abs 45 <= 6000000000 -> _) _). simpl; lia. }
  assert (E' : expiry 1000 (durationMinutes req') = Some (1000 + 1 * 60000)).
  { refine ((He' : Z.abs 1 <= 6000000000 -> _) _). simpl; lia. }
  rewrite E in Hs, Hr. rewrite E' in Hs'.
  exact (conj Hs (conj Hr Hs')).
Defined.

(** C4 (as stated) fails for a duration of 0: the session created at time
    1000 expires at 1000 + 30*60000, not at 1000 + 0*60000. *)
Lemma zero_duration_session_lasts_thirty_minutes :
  durationMinutes zero_minutes_request = Js.Num 0
  /\ create_session (initDb empty_db) zero_minutes_request
       "0b6f7a1e-5c1d-4e0a-9d56-3f2a7c8e9b10"
       "a1b2c3d4-1111-4222-8333-444455556666" 1000
     = (set_sessions (initDb empty_db)
          [mkSession "0b6f7a1e-5c1d-4e0a-9d56-3f2a7c8e9b10" "sec101"
                     "a1b2c3d4" 1000 (Some 1801000)],
        reply 200
          (JsonSession "0b6f7a1e-5c1d-4e0a-9d56-3f2a7c8e9b10" "a1b2c3d4"
             (Some 1801000)
             "http://localhost:3001/scan?session=0b6f7a1e-5c1d-4e0a-9d56-3f2a7c8e9b10&token=a1b2c3d4")).
Proof.
  split; reflexivity.
Qed.

(** C6 (as amended).  When the faculty identifier of a session-creation
    request resolves to no user with role faculty, and in particular when
    it is the identifier of a student, no session is created and the
    handler answers 400: with "Invalid faculty" when the request supplies
    both the faculty and the section identifier, with "Missing fields"
    when it lacks one of them. *)
Theorem session_for_non_faculty_is_rejected db req u1 u2 now :
  (forall u, In u (users db) -> facultyId req = Some (u_id u) ->
             u_role u = student) ->
  create_session db req u1 u2 now
  = (db,
     reply 400
       (JsonError
          match Js.given (facultyId req), Js.given (sectionId req) with
          | Some _, Some _ => "Invalid faculty"
          | _, _ => "Missing fields"
          end)).
Proof.
  intros Hrole. unfold create_session, session_checks.
  destruct (Js.given (facultyId req)) as [fid|] eqn:Hfid; simpl;
    [|reflexivity].
  destruct (Js.given (sectionId req)) as [sec|]; simpl; [|reflexivity].
  apply given_some in Hfid as [Hfid _].
  assert (Sql.user_by_id_role db fid faculty = None) as ->.
  { apply find_none_iff. intros u Hu.
    destruct (String.eqb_spec (u_id u) fid) as [Hid|]; [|reflexivity].
    rewrite (Hrole u Hu); [reflexivity | congruence]. }
  reflexivity.
Qed.

(** The student [stu1] asks for a session of section [sec101]. *)
Lemma session_for_non_faculty_is_rejected_witness :
  create_session demo_db
    (mkSessionRequest (Some "stu1") (Some "sec101") Js.Undefined
                      "http" "localhost:3001")
    "5d0c8a52-7b1f-4c3e-8a9d-0e1f2a3b4c5d"
    "9e8d7c6b-2222-4333-8444-555566667777" 5000
  = (demo_db, reply 400 (JsonError "Invalid faculty")).
Proof.
  apply (session_for_non_faculty_is_rejected demo_db
           (mkSessionRequest (Some "stu1") (Some "sec101") Js.Undefined
                             "http" "localhost:3001")).
  simpl. intros u [<-|[<-|[<-|[]]]]; simpl; intros H;
    [discriminate | reflexivity | discriminate].
Defined.

(** C6 (as stated) fails on a request that names the student [stu1] as
    faculty and carries no section identifier: the handler answers
    400 "Missing fields". *)
Lemma session_without_section_is_missing_fields :
  Sql.user_by_id_role demo_db "stu1" faculty = None
  /\ create_session demo_db
       (mkSessionRequest (Some "stu1") None Js.Undefined
                         "http" "localhost:3001")
       "5d0c8a52-7b1f-4c3e-8a9d-0e1f2a3b4c5d"
       "9e8d7c6b-2222-4333-8444-555566667777" 5000
     = (demo_db, reply 400 (JsonError "Missing fields")).
Proof.
  split; reflexivity.
Qed.

(** ** Attendance records are written once *)

Lemma run_attendance es : forall db,
  exists new, attendance (run db es) = (attendance db ++ new)%list.
Proof.
  induction es as [|e es IH]; intros db; simpl.
  - exists []. now rewrite app_nil_r.
  - destruct (IH (after db e)) as [new Hnew]. rewrite Hnew.
    destruct (after_attendance db e)
      as [H|(req & now & now' & recId & sid & stu & _ & _ & H)]; rewrite H.
    + now exists new.
    + rewrite <- app_assoc. eauto.
Qed.

(** C7.  A check-in attempt that does not answer 200, whether for missing
    parameters, for one of the five failures or for a database error,
    leaves the whole database as it was; a check-in that answers 200
    appends exactly one record; and no sequence of requests removes,
    rewrites or moves a record that exists: the table keeps its rows as a
    prefix. *)
Theorem failed_checkin_leaves_attendance_untouched :
  (forall db req now now' recId,
     status (snd (checkin db req now now' recId)) <> 200 ->
     fst (checkin db req now now' recId) = db)
  /\ (forall db req now now' recId,
        status (snd (checkin db req now now' recId)) = 200 ->
        exists sid stu,
          Js.given (sessionId req) = Some sid
          /\ Js.given (studentId req) = Some stu
          /\ fst (checkin db req now now' recId)
             = set_attendance db
                 (attendance db
                    ++ [mkAttendance recId sid stu "present" now' "qr"])%list)
  /\ (forall db es,
        exists new, attendance (run db es) = (attendance db ++ new)%list).
Proof.
  split; [|split].
  - intros db req now now' recId Hfail.
    destruct (checkin_cases db req now now' recId)
      as [[H _]|(sid & stu & _ & H)]; [exact H|].
    rewrite H in Hfail. simpl in Hfail. congruence.
  - intros db req now now' recId Hok.
    destruct (checkin_cases db req now now' recId)
      as [[_ H]|(sid & stu & Hc & H)]; [contradiction|].
    apply checkin_checks_next in Hc as (Hsid & Hstu & _).
    exists sid, stu. rewrite H. auto.
  - intros db es. apply run_attendance.
Qed.

(** The repeated demo check-in is answered 409 and changes nothing. *)
Lemma failed_checkin_leaves_attendance_untouched_witness :
  fst (checkin demo_db_checked_in demo_checkin 3000 3001 "rec-2")
  = demo_db_checked_in.
Proof.
  apply (proj1 failed_checkin_leaves_attendance_untouched
           demo_db_checked_in demo_checkin 3000 3001 "rec-2").
  simpl. discriminate.
Defined.

(** ** CSV export *)

(** C9.  A CSV-export request whose section filter matches no session,
    and a request without a filter when the sessions table is empty, is
    answered 200 with the text "No sessions", not with an error. *)
Theorem report_without_sessions db section :
  match Js.given section with
  | Some sec => forall s, In s (sessions db) -> s_section_id s <> sec
  | None => sessions db = []
  end ->
  report_csv db section = reply 200 (Text "No sessions").
Proof.
  unfold report_csv. destruct (Js.given section) as [sec|]; intros H.
  - unfold Sql.session_ids_of_section.
    assert (filter (fun s => (s_section_id s =? sec)%string) (sessions db) = [])
      as ->.
    { induction (sessions db) as [|s l IH]; simpl; [reflexivity|].
      destruct (String.eqb_spec (s_section_id s) sec) as [Heq|_].
      - exfalso. exact (H s (or_introl eq_refl) Heq).
      - apply IH. intros x Hx. apply H. now right. }
    reflexivity.
  - unfold Sql.session_ids. rewrite H. reflexivity.
Qed.

Lemma report_without_sessions_witness :
  report_csv demo_db (Some "sec999") = reply 200 (Text "No sessions").
Proof.
  apply (report_without_sessions demo_db (Some "sec999")).
  simpl. intros s [<-|[]]. simpl. discriminate.
Defined.

(** ** Faculty deletion *)

(** C10.  For every id, [DELETE /api/faculty/delete/:id] answers 200 with
    the success body, leaves sections, sessions and attendance as they
    were, and keeps in [users] exactly the rows that are not a faculty
    user with that id, in their order: every student stays, and when no
    faculty user has the id the table is unchanged. *)
Theorem faculty_delete_removes_only_faculty db id :
  snd (faculty_delete db id) = reply 200 JsonSuccess
  /\ sections (fst (faculty_delete db id)) = sections db
  /\ sessions (fst (faculty_delete db id)) = sessions db
  /\ attendance (fst (faculty_delete db id)) = attendance db
  /\ (forall u, In u (users (fst (faculty_delete db id)))
                <-> In u (users db) /\ ~ (u_id u = id /\ u_role u = faculty))
  /\ (forall u, In u (users db) -> u_role u = student ->
                In u (users (fst (faculty_delete db id))))
  /\ (Sql.user_by_id_role db id faculty = None ->
      fst (faculty_delete db id) = db).
Proof.
  assert (forall u, negb ((u_id u =? id)%string && role_eqb (u_role u) faculty)
                    = true
                    <-> ~ (u_id u = id /\ u_role u = faculty)) as Hkeep.
  { intros u. destruct (String.eqb_spec (u_id u) id) as [Hid|Hid];
      destruct (u_role u); simpl; split; intros H; try reflexivity;
      try discriminate; try (intros [? ?]; congruence).
    exfalso. apply H. auto. }
  split; [reflexivity|].
  split; [reflexivity|].
  split; [reflexivity|].
  split; [reflexivity|].
  split; [|split].
  - intros u. simpl. rewrite filter_In, Hkeep. reflexivity.
  - intros u Hin Hrole. simpl. apply filter_In. split; [exact Hin|].
    apply Hkeep. intros [_ Hf]. congruence.
  - intros Hnone. unfold faculty_delete, Sql.delete_faculty. simpl.
    unfold Sql.user_by_id_role in Hnone.
    assert (filter (fun u => negb ((u_id u =? id)%string
                                   && role_eqb (u_role u) faculty))
                   (users db) = users db) as ->.
    { induction (users db) as [|u l IH]; simpl; [reflexivity|].
      simpl in Hnone.
      destruct ((u_id u =? id)%string && role_eqb (u_role u) faculty);
        [discriminate|]. simpl. f_equal. exact (IH Hnone). }
    destruct db; reflexivity.
Qed.

(** ** Interleaved check-ins *)

(** The handler awaits the database between its checks and its
    [INSERT].  Two check-ins of the same student that both pass the
    checks on the same state of the database, before either has
    inserted, leave two records for the pair. *)
Theorem interleaved_checkins_insert_twice
    db req now1 now2 t1 t2 recA recB sid stu :
  checkin_checks db req now1 = Next (sid, stu) ->
  checkin_checks db req now2 = Next (sid, stu) ->
  existsb (fun r => (a_id r =? recA)%string) (attendance db) = false ->
  existsb (fun r => (a_id r =? recB)%string) (attendance db) = false ->
  recA <> recB ->
  let db1 := fst (checkin_insert db sid stu t1 recA) in
  let db2 := fst (checkin_insert db1 sid stu t2 recB) in
  records_of_pair db2 sid stu = 2%nat.
Proof.
  intros Hc1 _ HA HB Hneq db1 db2.
  apply checkin_checks_next in Hc1 as (_ & _ & _ & _ & Hnone).
  subst db2 db1. unfold checkin_insert.
  rewrite (insert_fresh a_id _ (attendance db)) by exact HA. simpl.
  rewrite insert_fresh.
  - simpl. rewrite records_of_pair_append, records_of_pair_append. simpl.
    rewrite !String.eqb_refl. simpl.
    unfold records_of_pair, Sql.attendance_of in *.
    now rewrite (find_none_filter _ _ Hnone).
  - simpl. rewrite existsb_app, HB. simpl.
    destruct (String.eqb_spec recA recB); [contradiction|reflexivity].
Qed.

Lemma interleaved_checkins_insert_twice_witness :
  records_of_pair
    (fst (checkin_insert
            (fst (checkin_insert demo_db demo_session "stu1" 2001 "rec-1"))
            demo_session "stu1" 2002 "rec-2"))
    demo_session "stu1"
  = 2%nat.
Proof.
  apply (interleaved_checkins_insert_twice demo_db demo_checkin 2000 2000
           2001 2002 "rec-1" "rec-2" demo_session "stu1");
    try reflexivity.
  discriminate.
Defined.

(** ** Identifiers and tokens *)

Lemma well_keyed_run es : forall db,
  Forall generated_ids_nonempty es -> well_keyed db -> well_keyed (run db es).
Proof.
  induction es as [|e es IH]; intros db Hes Hdb; simpl; [exact Hdb|].
  inversion Hes as [|? ? He Hrest]; subst.
  apply IH; [exact Hrest|]. now apply well_keyed_after.
Qed.

(** Starting from the empty database, whatever requests are served, no
    session has an empty identifier or an empty token and no user has an
    empty identifier, as long as [uuidv4()] returns identifiers that do
    not begin with a dash. *)
Theorem reachable_database_is_well_keyed es :
  Forall generated_ids_nonempty es -> well_keyed (run empty_db es).
Proof.
  intros Hes. apply well_keyed_run; [exact Hes|].
  split; simpl; intros x [].
Qed.

Lemma reachable_database_is_well_keyed_witness :
  well_keyed
    (run empty_db
       [Startup;
        CreateSession demo_request "0b6f7a1e-5c1d-4e0a-9d56-3f2a7c8e9b10"
                      "a1b2c3d4-1111-4222-8333-444455556666" 1000;
        Checkin demo_checkin 2000 2001 "rec-1"]).
Proof.
  apply reachable_database_is_well_keyed.
  repeat constructor; simpl; discriminate.
Defined.

(** * Further properties of the handlers *)

(** ** Outcomes of the writing handlers *)

Lemma existsb_key_false {A : Type} (key : A -> string) (k : string) (l : list A) :
  existsb (fun r => (key r =? k)%string) l = false <-> ~ In k (map key l).
Proof.
  induction l as [|a l IH]; simpl; [tauto|].
  rewrite orb_false_iff, IH.
  destruct (String.eqb_spec (key a) k); intuition congruence.
Qed.

Lemma insert_keeps_unique {A : Type} (key : A -> string) (row : A) (l : list A) :
  NoDup (map key l) ->
  existsb (fun r => (key r =? key row)%string) l = false ->
  NoDup (map key (l ++ [row])%list).
Proof.
  intros Hl Hfresh. apply existsb_key_false in Hfresh.
  rewrite map_app. simpl. induction (map key l) as [|k ks IH]; simpl.
  - constructor; [intros []|constructor].
  - inversion Hl as [|? ? Hk Hks]; subst. constructor.
    + rewrite in_app_iff. simpl. intros [H|[H|[]]]; [contradiction|].
      apply Hfresh. now left.
    + apply IH; [exact Hks|]. intros H. apply Hfresh. now right.
Qed.

Lemma filter_keeps_unique {A : Type} (key : A -> string) (p : A -> bool)
    (l : list A) :
  NoDup (map key l) -> NoDup (map key (filter p l)).
Proof.
  induction l as [|a l IH]; simpl; intros Hl; [constructor|].
  inversion Hl as [|? ? Ha Hrest]; subst.
  destruct (p a); simpl; [|now apply IH].
  constructor; [|now apply IH].
  intros Hin. apply Ha. apply in_map_iff in Hin as (x & Hx & Hin).
  apply filter_In in Hin as [Hin _]. apply in_map_iff. eauto.
Qed.

Lemma faculty_add_ok db id name :
  status (snd (faculty_add db id name)) = 200 ->
  exists i n,
    Js.given id = Some i /\ Js.given name = Some n
    /\ existsb (fun r => (u_id r =? i)%string) (users db) = false
    /\ faculty_add db id name
       = (set_users db (users db ++ [mkUser i n faculty])%list,
          reply 200 JsonSuccess).
Proof.
  unfold faculty_add, Sql.insert.
  destruct (Js.given id) as [i|]; [|discriminate].
  destruct (Js.given name) as [n|]; [|discriminate].
  simpl. destruct (existsb _ (users db)) eqn:Hex; [discriminate|].
  intros _. exists i, n. auto.
Qed.

Lemma faculty_add_failed db id name :
  status (snd (faculty_add db id name)) <> 200 ->
  fst (faculty_add db id name) = db.
Proof.
  unfold faculty_add, Sql.insert.
  destruct (Js.given id) as [i|]; [|reflexivity].
  destruct (Js.given name) as [n|]; [|reflexivity].
  simpl. destruct (existsb _ (users db)); [reflexivity|].
  simpl. congruence.
Qed.

Lemma create_session_ok db req u1 u2 now :
  status (snd (create_session db req u1 u2 now)) = 200 ->
  exists fid sec f c,
    Js.given (facultyId req) = Some fid
    /\ Js.given (sectionId req) = Some sec
    /\ Sql.user_by_id_role db fid faculty = Some f
    /\ Sql.section_by_id db sec = Some c
    /\ existsb (fun r => (s_id r =? u1)%string) (sessions db) = false
    /\ create_session db req u1 u2 now
       = (set_sessions db
            (sessions db
               ++ [mkSession u1 sec (Js.split_dash_head u2) now
                             (expiry now (durationMinutes req))])%list,
          reply 200
            (JsonSession u1 (Js.split_dash_head u2)
               (expiry now (durationMinutes req))
               (checkin_url req u1 (Js.split_dash_head u2)))).
Proof.
  unfold create_session, session_checks, Sql.insert.
  destruct (Js.given (facultyId req)) as [fid|]; simpl; [|discriminate].
  destruct (Js.given (sectionId req)) as [sec|]; simpl; [|discriminate].
  destruct (Sql.user_by_id_role db fid faculty) as [f|] eqn:Hf; simpl;
    [|discriminate].
  destruct (Sql.section_by_id db sec) as [c|] eqn:Hsec; simpl; [|discriminate].
  destruct (existsb _ (sessions db)) eqn:Hex; [discriminate|].
  intros _. exists fid, sec, f, c. repeat split; auto.
Qed.

Lemma create_session_failed db req u1 u2 now :
  status (snd (create_session db req u1 u2 now)) <> 200 ->
  fst (create_session db req u1 u2 now) = db.
Proof.
  intros Hst.
  destruct (create_session_cases db req u1 u2 now) as [[H _]|(f & s & _ & H)];
    [exact H|].
  rewrite H in Hst. simpl in Hst. congruence.
Qed.

Lemma checkin_ok db req now now' recId :
  status (snd (checkin db req now now' recId)) = 200 ->
  exists sid stu,
    checkin_checks db req now = Next (sid, stu)
    /\ existsb (fun r => (a_id r =? recId)%string) (attendance db) = false
    /\ checkin db req now now' recId
       = (set_attendance db
            (attendance db
               ++ [mkAttendance recId sid stu "present" now' "qr"])%list,
          reply 200 JsonCheckedIn).
Proof.
  unfold checkin.
  destruct (checkin_checks db req now) as [r|[sid stu]] eqn:Hc.
  - simpl. intros Hst. now apply checkin_checks_return in Hc.
  - unfold checkin_insert, Sql.insert. simpl.
    destruct (existsb _ (attendance db)) eqn:Hex; [discriminate|].
    intros _. exists sid, stu. auto.
Qed.

Lemma checkin_failed db req now now' recId :
  status (snd (checkin db req now now' recId)) <> 200 ->
  fst (checkin db req now now' recId) = db.
Proof.
  intros Hst.
  destruct (checkin_cases db req now now' recId) as [[H _]|(sid & stu & _ & H)];
    [exact H|].
  rewrite H in Hst. simpl in Hst. congruence.
Qed.

(** The rows [initDb] seeds. *)
Lemma initDb_cases db :
  (users db <> [] /\ initDb db = db)
  \/ (users db = []
      /\ users (initDb db)
         = [mkUser "faculty1" "Prof. Alice" faculty;
            mkUser "stu1" "Bob Student" student;
            mkUser "stu2" "Cara Student" student]
      /\ (sections (initDb db) = sections db
          \/ (existsb (fun r => (sec_id r =? "sec101")%string) (sections db)
              = false
              /\ sections (initDb db)
                 = (sections db
                      ++ [mkSection "sec101" "CS101" "Intro to CS"
                                    "faculty1"])%list))).
Proof.
  unfold initDb. destruct (users db) as [|u us] eqn:Hu.
  - right. split; [reflexivity|]. unfold seeded, Sql.insert. simpl.
    destruct (existsb _ (sections db)) eqn:Hex; simpl; auto.
  - left. split; [discriminate | reflexivity].
Qed.

(** Every request leaves the database as it was, seeds it, or makes one
    of four changes: a faculty row appended under a fresh identifier,
    the faculty rows of one identifier deleted, a session appended for an
    existing section, or an attendance row appended for a request that
    passed the validation. *)
Lemma after_shape db e :
  after db e = db
  \/ after db e = initDb db
  \/ (exists i n,
        existsb (fun r => (u_id r =? i)%string) (users db) = false
        /\ after db e = set_users db (users db ++ [mkUser i n faculty])%list)
  \/ (exists id, after db e = Sql.delete_faculty db id)
  \/ (exists id sec tok start expires c,
        Sql.section_by_id db sec = Some c
        /\ existsb (fun r => (s_id r =? id)%string) (sessions db) = false
        /\ after db e
           = set_sessions db
               (sessions db ++ [mkSession id sec tok start expires])%list)
  \/ (exists req now now' recId sid stu,
        e = Checkin req now now' recId
        /\ checkin_checks db req now = Next (sid, stu)
        /\ existsb (fun r => (a_id r =? recId)%string) (attendance db) = false
        /\ after db e
           = set_attendance db
               (attendance db
                  ++ [mkAttendance recId sid stu "present" now' "qr"])%list).
Proof.
  destruct e as [ |id name|id|req u1 u2 now|req now now' recId|sec| | | |route];
    unfold after; simpl; auto.
  - destruct (Z.eq_dec (status (snd (faculty_add db id name))) 200) as [Hst|Hst].
    + apply faculty_add_ok in Hst as (i & n & _ & _ & Hfresh & ->).
      right. right. left. exists i, n. auto.
    + apply faculty_add_failed in Hst. left.
      destruct (faculty_add db id name); exact Hst.
  - right. right. right. left. exists id. reflexivity.
  - destruct (Z.eq_dec (status (snd (create_session db req u1 u2 now))) 200)
      as [Hst|Hst].
    + apply create_session_ok in Hst
        as (fid & sec & f & c & _ & _ & _ & Hsec & Hfresh & ->).
      do 4 right. left. exists u1, sec, (Js.split_dash_head u2), now,
        (expiry now (durationMinutes req)), c. auto.
    + apply create_session_failed in Hst. left.
      destruct (create_session db req u1 u2 now); exact Hst.
  - destruct (Z.eq_dec (status (snd (checkin db req now now' recId))) 200)
      as [Hst|Hst].
    + apply checkin_ok in Hst as (sid & stu & Hc & Hfresh & ->).
      do 5 right. exists req, now, now', recId, sid, stu. auto.
    + apply checkin_failed in Hst. left.
      destruct (checkin db req now now' recId); exact Hst.
Qed.

(** ** Primary keys *)

Lemma keys_unique_after db e : keys_unique db -> keys_unique (after db e).
Proof.
  intros [Hu Hc Hs Ha].
  destruct (after_shape db e)
    as [->|[->|[(i & n & Hf & ->)|[(id & ->)|[(id & sec & tok & st & ex & c
          & _ & Hf & ->)|(req & now & now' & recId & sid & stu & _ & _ & Hf
          & ->)]]]]];
    try (split; simpl; auto; fail).
  - split; [| |now rewrite initDb_keeps_sessions
            |now rewrite initDb_keeps_attendance];
      destruct (initDb_cases db) as [[_ ->]|(_ & Hus & Hsec)]; auto.
    + rewrite Hus. simpl.
      repeat constructor; simpl; intuition discriminate.
    + destruct Hsec as [->|[Hf ->]]; [exact Hc|].
      now apply insert_keeps_unique.
  - split; simpl; auto. now apply insert_keeps_unique.
  - split; simpl; auto. now apply filter_keeps_unique.
  - split; simpl; auto. now apply insert_keeps_unique.
  - split; simpl; auto. now apply insert_keeps_unique.
Qed.

Lemma keys_unique_run es : forall db, keys_unique db -> keys_unique (run db es).
Proof.
  induction es as [|e es IH]; intros db H; simpl; [exact H|].
  apply IH. now apply keys_unique_after.
Qed.

(** Starting from the empty database, whatever requests are served, no
    two users, no two sections, no two sessions and no two attendance
    records share an identifier. *)
Theorem reachable_database_has_unique_keys es : keys_unique (run empty_db es).
Proof.
  apply keys_unique_run. split; constructor.
Qed.

(** ** References *)

Lemma references_hold_after db e :
  references_hold db -> references_hold (after db e).
Proof.
  intros [Hs Hu Hm Hc].
  destruct (after_shape db e)
    as [->|[->|[(i & n & Hf & ->)|[(id & ->)|[(id & sec & tok & st & ex & c
          & Hsec & Hf & ->)|(req & now & now' & recId & sid & stu & _ & Hchk
          & Hf & ->)]]]]];
    try (split; simpl; auto; fail).
  - destruct (initDb_cases db) as [[_ ->]|(Hnil & Hus & Hsec)];
      [split; auto|].
    split; rewrite ?initDb_keeps_sessions, ?initDb_keeps_attendance; auto.
    + intros a Ha. destruct (Hu a Ha) as (u & Hin & _).
      rewrite Hnil in Hin. destruct Hin.
    + intros s Hin. destruct (Hc s Hin) as (c & Hcin & Hid).
      exists c. split; [|exact Hid].
      destruct Hsec as [->|[_ ->]]; [exact Hcin|].
      apply in_or_app. now left.
  - split; simpl; auto.
    intros a Ha. destruct (Hu a Ha) as (u & Hin & Hid & Hr).
    exists u. rewrite in_app_iff. auto.
  - split; simpl; auto.
    intros a Ha. destruct (Hu a Ha) as (u & Hin & Hid & Hr).
    exists u. rewrite filter_In, Hr, andb_false_r. auto.
  - split; simpl; auto.
    + intros a Ha. destruct (Hs a Ha) as (s & Hin & Hid).
      exists s. rewrite in_app_iff. auto.
    + intros s Hin. apply in_app_or in Hin as [Hin|[<-|[]]]; [now apply Hc|].
      apply find_some in Hsec as [Hcin Hid]. apply String.eqb_eq in Hid.
      exists c. auto.
  - apply checkin_checks_next in Hchk
      as (_ & _ & (s & Hses & _) & (u & Huser) & _).
    apply find_some in Hses as [Hsin Hsid]. apply String.eqb_eq in Hsid.
    apply find_some in Huser as [Huin Huid].
    apply andb_prop in Huid as [Huid Hrole]. apply String.eqb_eq in Huid.
    split; simpl; auto.
    + intros a Ha. apply in_app_or in Ha as [Ha|[<-|[]]]; [now apply Hs|].
      exists s. auto.
    + intros a Ha. apply in_app_or in Ha as [Ha|[<-|[]]]; [now apply Hu|].
      exists u. simpl. repeat split; auto.
      destruct (u_role u); [reflexivity|discriminate].
    + intros a Ha. apply in_app_or in Ha as [Ha|[<-|[]]]; [now apply Hm|].
      simpl. auto.
Qed.

Lemma references_hold_run es : forall db,
  references_hold db -> references_hold (run db es).
Proof.
  induction es as [|e es IH]; intros db H; simpl; [exact H|].
  apply IH. now apply references_hold_after.
Qed.

(** SQLite does not enforce the foreign keys of the schema, yet starting
    from the empty database every attendance record names a session of
    the [sessions] table and a user with role student of the [users]
    table and carries status "present" and method "qr", and every
    session names a section of the [sections] table. *)
Theorem reachable_database_keeps_references es :
  references_hold (run empty_db es).
Proof.
  apply references_hold_run. split; simpl; intros x [].
Qed.

Lemma times_valid_after db e :
  clock_valid e -> times_valid db -> times_valid (after db e).
Proof.
  intros He Hdb a.
  destruct (after_attendance db e)
    as [->|(req & now & now' & recId & sid & stu & -> & _ & ->)];
    [apply Hdb|].
  intros Ha. apply in_app_or in Ha as [Ha|[<-|[]]]; [now apply Hdb|exact He].
Qed.

Lemma times_valid_run es : forall db,
  Forall clock_valid es -> times_valid db -> times_valid (run db es).
Proof.
  induction es as [|e es IH]; intros db Hes Hdb; simpl; [exact Hdb|].
  inversion Hes as [|? ? He Hrest]; subst.
  apply IH; [exact Hrest|]. now apply times_valid_after.
Qed.

(** ** Faculty management *)

Lemma set_users_same db : set_users db (users db) = db.
Proof. destruct db; reflexivity. Qed.

Lemma delete_faculty_lookup db id :
  Sql.user_by_id_role (Sql.delete_faculty db id) id faculty = None.
Proof.
  unfold Sql.user_by_id_role, Sql.delete_faculty. simpl.
  apply find_none_iff. intros u Hu. apply filter_In in Hu as [_ Hu].
  now apply negb_true_iff in Hu.
Qed.

Lemma delete_absent_faculty db id :
  Sql.user_by_id_role db id faculty = None -> Sql.delete_faculty db id = db.
Proof.
  intros Hnone. unfold Sql.delete_faculty.
  assert (filter (fun u => negb ((u_id u =? id)%string
                                 && role_eqb (u_role u) faculty))
                 (users db) = users db) as ->.
  { unfold Sql.user_by_id_role in Hnone.
    induction (users db) as [|u l IH]; simpl; [reflexivity|].
    simpl in Hnone.
    destruct ((u_id u =? id)%string && role_eqb (u_role u) faculty);
      [discriminate|]. simpl. f_equal. exact (IH Hnone). }
  apply set_users_same.
Qed.

(** A faculty user that [POST /api/faculty/add] accepted is the user the
    lookup by identifier and role finds, comes last in the listing of
    [GET /api/faculty] after the faculty users there were, and no user
    that existed is lost or changed. *)
Theorem added_faculty_is_found_and_listed db id name db' r :
  faculty_add db id name = (db', r) ->
  status r = 200 ->
  exists i n,
    id = Some i /\ name = Some n
    /\ Sql.user_by_id_role db' i faculty = Some (mkUser i n faculty)
    /\ list_faculty db'
       = reply 200
           (JsonUsers (Sql.faculty_users db ++ [mkUser i n faculty])%list)
    /\ users db' = (users db ++ [mkUser i n faculty])%list.
Proof.
  intros Hadd Hst.
  assert (status (snd (faculty_add db id name)) = 200) as Hok
    by now rewrite Hadd.
  apply faculty_add_ok in Hok as (i & n & Hi & Hn & Hfresh & Heq).
  rewrite Heq in Hadd. injection Hadd as <- <-.
  exists i, n.
  split; [now apply given_some in Hi|].
  split; [now apply given_some in Hn|].
  split; [|split; [|reflexivity]].
  - unfold Sql.user_by_id_role. simpl. rewrite find_app_none.
    + simpl. now rewrite String.eqb_refl.
    + apply find_none_iff. intros u Hu.
      apply existsb_key_false in Hfresh.
      destruct (String.eqb_spec (u_id u) i) as [Hid|]; [|reflexivity].
      exfalso. apply Hfresh. apply in_map_iff. eauto.
  - unfold list_faculty, Sql.faculty_users. simpl.
    now rewrite filter_app.
Qed.

Lemma added_faculty_is_found_and_listed_witness :
  exists i n,
    Some "faculty2" = Some i /\ Some "Prof. Dan" = Some n
    /\ Sql.user_by_id_role
         (fst (faculty_add demo_db (Some "faculty2") (Some "Prof. Dan")))
         i faculty
       = Some (mkUser i n faculty)
    /\ list_faculty
         (fst (faculty_add demo_db (Some "faculty2") (Some "Prof. Dan")))
       = reply 200
           (JsonUsers (Sql.faculty_users demo_db ++ [mkUser i n faculty])%list)
    /\ users (fst (faculty_add demo_db (Some "faculty2") (Some "Prof. Dan")))
       = (users demo_db ++ [mkUser i n faculty])%list.
Proof.
  exact (added_faculty_is_found_and_listed demo_db (Some "faculty2")
           (Some "Prof. Dan") _ _ eq_refl eq_refl).
Defined.

(** Deleting a faculty user right after adding it gives back the
    database as it was before the addition. *)
Theorem faculty_add_then_delete_restores db id name db' r i :
  faculty_add db id name = (db', r) ->
  status r = 200 ->
  id = Some i ->
  fst (faculty_delete db' i) = db.
Proof.
  intros Hadd Hst ->.
  assert (status (snd (faculty_add db (Some i) name)) = 200) as Hok
    by now rewrite Hadd.
  apply faculty_add_ok in Hok as (i' & n & Hi & _ & Hfresh & Heq).
  apply given_some in Hi as [[= <-] _].
  rewrite Heq in Hadd. injection Hadd as <- _.
  unfold faculty_delete, Sql.delete_faculty. simpl.
  rewrite filter_app. simpl. rewrite String.eqb_refl. simpl.
  rewrite app_nil_r.
  assert (filter (fun u => negb ((u_id u =? i)%string
                                 && role_eqb (u_role u) faculty))
                 (users db) = users db) as ->.
  { apply existsb_key_false in Hfresh. clear Heq.
    induction (users db) as [|u l IH]; simpl; [reflexivity|].
    destruct (String.eqb_spec (u_id u) i) as [Hid|_]; simpl.
    - exfalso. apply Hfresh. simpl. now left.
    - f_equal. apply IH. intros Hin. apply Hfresh. simpl. now right. }
  destruct db; reflexivity.
Qed.

Lemma faculty_add_then_delete_restores_witness :
  fst (faculty_delete
         (fst (faculty_add demo_db (Some "faculty2") (Some "Prof. Dan")))
         "faculty2")
  = demo_db.
Proof.
  exact (faculty_add_then_delete_restores demo_db (Some "faculty2")
           (Some "Prof. Dan") _ _ "faculty2" eq_refl eq_refl eq_refl).
Defined.

(** After [DELETE /api/faculty/delete/:id] no faculty user has the
    identifier: deleting it again changes nothing, and a session-creation
    request that names it as faculty is answered 400 and creates no
    session. *)
Theorem deleted_faculty_cannot_create_session db id req u1 u2 now :
  facultyId req = Some id ->
  fst (faculty_delete (fst (faculty_delete db id)) id)
  = fst (faculty_delete db id)
  /\ fst (create_session (fst (faculty_delete db id)) req u1 u2 now)
     = fst (faculty_delete db id)
  /\ status (snd (create_session (fst (faculty_delete db id)) req u1 u2 now))
     = 400.
Proof.
  intros Hid. simpl.
  pose proof (delete_faculty_lookup db id) as Hnone.
  split; [now apply delete_absent_faculty|].
  unfold create_session, session_checks. rewrite Hid.
  destruct (Js.given (Some id)) as [fid|] eqn:Hg; simpl; [|auto].
  apply given_some in Hg as [[= <-] _].
  destruct (Js.given (sectionId req)); simpl; [|auto].
  rewrite Hnone. simpl. auto.
Qed.

Lemma deleted_faculty_cannot_create_session_witness :
  fst (faculty_delete (fst (faculty_delete demo_db "faculty1")) "faculty1")
  = fst (faculty_delete demo_db "faculty1")
  /\ fst (create_session (fst (faculty_delete demo_db "faculty1"))
            demo_request "5d0c8a52-7b1f-4c3e-8a9d-0e1f2a3b4c5d"
            "9e8d7c6b-2222-4333-8444-555566667777" 5000)
     = fst (faculty_delete demo_db "faculty1")
  /\ status (snd (create_session (fst (faculty_delete demo_db "faculty1"))
                    demo_request "5d0c8a52-7b1f-4c3e-8a9d-0e1f2a3b4c5d"
                    "9e8d7c6b-2222-4333-8444-555566667777" 5000))
     = 400.
Proof.
  exact (deleted_faculty_cannot_create_session demo_db "faculty1" demo_request
           "5d0c8a52-7b1f-4c3e-8a9d-0e1f2a3b4c5d"
           "9e8d7c6b-2222-4333-8444-555566667777" 5000 eq_refl).
Defined.

(** ** Session manager, continued *)

(** A request whose faculty identifier is that of a faculty user but
    whose section identifier is that of no section is answered
    400 "Invalid section" and creates no session. *)
Theorem session_for_unknown_section_is_rejected db req u1 u2 now fid sec f :
  Js.given (facultyId req) = Some fid ->
  Js.given (sectionId req) = Some sec ->
  Sql.user_by_id_role db fid faculty = Some f ->
  (forall c, In c (sections db) -> sec_id c <> sec) ->
  create_session db req u1 u2 now
  = (db, reply 400 (JsonError "Invalid section")).
Proof.
  intros Hfid Hsec Hf Hnone.
  unfold create_session, session_checks. rewrite Hfid, Hsec. simpl.
  rewrite Hf. simpl.
  assert (Sql.section_by_id db sec = None) as ->.
  { apply find_none_iff. intros c Hc.
    destruct (String.eqb_spec (sec_id c) sec) as [Heq|]; [|reflexivity].
    now apply Hnone in Heq. }
  reflexivity.
Qed.

Lemma session_for_unknown_section_is_rejected_witness :
  create_session demo_db
    (mkSessionRequest (Some "faculty1") (Some "sec999") Js.Undefined
                      "http" "localhost:3001")
    "5d0c8a52-7b1f-4c3e-8a9d-0e1f2a3b4c5d"
    "9e8d7c6b-2222-4333-8444-555566667777" 5000
  = (demo_db, reply 400 (JsonError "Invalid section")).
Proof.
  apply (session_for_unknown_section_is_rejected demo_db _ _ _ _
           "faculty1" "sec999" (mkUser "faculty1" "Prof. Alice" faculty));
    try reflexivity.
  simpl. intros c [<-|[]]. discriminate.
Defined.


(** ** Check-in validator, continued *)

(** A check-in is answered 200 only for a request that names an existing
    session, carries that session's token, arrives while the current
    time is not past the expiry, names a user with role student, and has
    no attendance record yet; the identifier generated for the record is
    then new.  No record is ever written for a wrong token, an expired
    session, an unknown student or a repeated check-in. *)
Theorem checkin_success_requires db req now now' recId :
  status (snd (checkin db req now now' recId)) = 200 ->
  exists sid tok stu s u,
    sessionId req = Some sid /\ token req = Some tok
    /\ studentId req = Some stu
    /\ In s (sessions db) /\ s_id s = sid /\ s_token s = tok
    /\ Js.gt now (s_expires_at s) = false
    /\ In u (users db) /\ u_id u = stu /\ u_role u = student
    /\ records_of_pair db sid stu = 0%nat
    /\ ~ In recId (map a_id (attendance db)).
Proof.
  intros Hst. apply checkin_ok in Hst as (sid & stu & Hc & Hfresh & _).
  apply checkin_checks_next in Hc
    as (Hsid & Hstu & (s & Hs & Htok & Hgt) & (u & Hu) & Hnone).
  apply given_some in Hsid as [Hsid _].
  apply given_some in Hstu as [Hstu _].
  apply given_some in Htok as [Htok _].
  apply find_some in Hs as [Hsin Hsi]. apply String.eqb_eq in Hsi.
  apply find_some in Hu as [Huin Hup]. apply andb_prop in Hup as [Hui Hur].
  apply String.eqb_eq in Hui.
  exists sid, (s_token s), stu, s, u. repeat split; auto.
  - destruct (u_role u); [reflexivity|discriminate].
  - unfold records_of_pair. unfold Sql.attendance_of in Hnone.
    now rewrite (find_none_filter _ _ Hnone).
  - now apply existsb_key_false in Hfresh.
Qed.

Lemma checkin_success_requires_witness :
  exists sid tok stu s u,
    sessionId demo_checkin = Some sid /\ token demo_checkin = Some tok
    /\ studentId demo_checkin = Some stu
    /\ In s (sessions demo_db) /\ s_id s = sid /\ s_token s = tok
    /\ Js.gt 2000 (s_expires_at s) = false
    /\ In u (users demo_db) /\ u_id u = stu /\ u_role u = student
    /\ records_of_pair demo_db sid stu = 0%nat
    /\ ~ In "rec-1" (map a_id (attendance demo_db)).
Proof.
  exact (checkin_success_requires demo_db demo_checkin 2000 2001 "rec-1"
           eq_refl).
Defined.

(** What the validation has established when it reports an expired
    session. *)
Lemma checkin_checks_expired db req now :
  checkin_checks db req now = Return (reply 403 (JsonError "Session expired")) ->
  exists sid tok stu s,
    Js.given (sessionId req) = Some sid
    /\ Js.given (token req) = Some tok
    /\ Js.given (studentId req) = Some stu
    /\ Sql.session_by_id db sid = Some s
    /\ s_token s = tok
    /\ Js.gt now (s_expires_at s) = true.
Proof.
  unfold checkin_checks.
  destruct (Js.given (sessionId req)) as [sid|]; simpl; [|discriminate].
  destruct (Js.given (token req)) as [tok|]; simpl; [|discriminate].
  destruct (Js.given (studentId req)) as [stu|]; simpl; [|discriminate].
  destruct (Sql.session_by_id db sid) as [s|] eqn:Hs; simpl; [|discriminate].
  destruct (String.eqb_spec (s_token s) tok) as [Ht|]; simpl; [|discriminate].
  destruct (Js.gt now (s_expires_at s)) eqn:Hgt; simpl.
  - intros _. exists sid, tok, stu, s. auto 10.
  - destruct (Sql.user_by_id_role db stu student); simpl; [|discriminate].
    destruct (Sql.attendance_of db sid stu); discriminate.
Qed.

Lemma gt_later now now2 e :
  Js.gt now e = true -> now <= now2 -> Js.gt now2 e = true.
Proof.
  unfold Js.gt. destruct e; rewrite !Z.ltb_lt; lia.
Qed.

(** A session does not come back from expiry: once a check-in request has
    been answered "Session expired", the same request is answered
    "Session expired" at every later time, whatever requests were served
    in between, and writes nothing. *)
Theorem expired_session_stays_expired db req now now' recId es now2 now2' recId2 :
  snd (checkin db req now now' recId)
  = reply 403 (JsonError "Session expired") ->
  now <= now2 ->
  checkin (run db es) req now2 now2' recId2
  = (run db es, reply 403 (JsonError "Session expired")).
Proof.
  intros Hexp Hlater.
  assert (checkin_checks db req now
          = Return (reply 403 (JsonError "Session expired"))) as Hc.
  { revert Hexp. unfold checkin.
    destruct (checkin_checks db req now) as [r|[sid stu]]; simpl.
    - now intros ->.
    - unfold checkin_insert. destruct (Sql.insert _ _ _); discriminate. }
  apply checkin_checks_expired in Hc
    as (sid & tok & stu & s & Hsid & Htok & Hstu & Hs & Ht & Hgt).
  destruct (lookups_kept_run es db) as [KS _ _].
  unfold checkin, checkin_checks. rewrite Hsid, Htok, Hstu. simpl.
  rewrite (KS _ _ Hs). simpl. rewrite Ht, String.eqb_refl. simpl.
  now rewrite (gt_later now now2 _ Hgt Hlater).
Qed.

Lemma expired_session_stays_expired_witness :
  checkin
    (run demo_db [FacultyAdd (Some "faculty2") (Some "Prof. Dan");
                  CreateSession demo_request
                    "5d0c8a52-7b1f-4c3e-8a9d-0e1f2a3b4c5d"
                    "9e8d7c6b-2222-4333-8444-555566667777" 1900000])
    demo_checkin 2000000 2000001 "rec-2"
  = (run demo_db [FacultyAdd (Some "faculty2") (Some "Prof. Dan");
                  CreateSession demo_request
                    "5d0c8a52-7b1f-4c3e-8a9d-0e1f2a3b4c5d"
                    "9e8d7c6b-2222-4333-8444-555566667777" 1900000],
     reply 403 (JsonError "Session expired")).
Proof.
  apply (expired_session_stays_expired demo_db demo_checkin 1801001 1801002
           "rec-1").
  - reflexivity.
  - lia.
Defined.

(** The check-in handler reads the sessions, the attendance records and
    the users with role student, and nothing else. *)
Lemma checkin_reads db1 db2 req now now' recId :
  sessions db1 = sessions db2 ->
  attendance db1 = attendance db2 ->
  (forall stu, Sql.user_by_id_role db1 stu student
               = Sql.user_by_id_role db2 stu student) ->
  snd (checkin db1 req now now' recId) = snd (checkin db2 req now now' recId)
  /\ attendance (fst (checkin db1 req now now' recId))
     = attendance (fst (checkin db2 req now now' recId)).
Proof.
  intros Hs Ha Hu.
  assert (checkin_checks db1 req now = checkin_checks db2 req now) as Hc.
  { unfold checkin_checks, Sql.session_by_id, Sql.attendance_of.
    rewrite Hs, Ha.
    destruct (Js.given (sessionId req)); simpl; [|reflexivity].
    destruct (Js.given (token req)); simpl; [|reflexivity].
    destruct (Js.given (studentId req)) as [stu|]; simpl; [|reflexivity].
    now rewrite (Hu stu). }
  unfold checkin. rewrite Hc.
  destruct (checkin_checks db2 req now) as [r|[sid stu]]; simpl; [auto|].
  unfold checkin_insert. rewrite Ha.
  destruct (Sql.insert a_id _ (attendance db2)); simpl; auto.
Qed.

(** Adding or deleting faculty users never changes the answer to a
    check-in, nor the attendance table it leaves. *)
Theorem faculty_management_leaves_checkin_alone db e req now now' recId :
  manages_faculty e ->
  snd (checkin (after db e) req now now' recId)
  = snd (checkin db req now now' recId)
  /\ attendance (fst (checkin (after db e) req now now' recId))
     = attendance (fst (checkin db req now now' recId)).
Proof.
  intros He.
  destruct e as [ |id name|id|? ? ? ?|? ? ? ?|?| | | |?]; try destruct He.
  - unfold after. simpl.
    destruct (Z.eq_dec (status (snd (faculty_add db id name))) 200) as [Hst|Hst].
    + apply faculty_add_ok in Hst as (i & n & _ & _ & _ & ->). simpl.
      apply checkin_reads; try reflexivity.
      intros stu. unfold Sql.user_by_id_role. simpl.
      destruct (find _ (users db)) as [u|] eqn:Hf.
      * now apply find_app_some.
      * rewrite find_app_none by exact Hf. simpl. now rewrite andb_false_r.
    + apply faculty_add_failed in Hst.
      destruct (faculty_add db id name); simpl in *. now subst.
  - unfold after. simpl. apply checkin_reads; try reflexivity.
    intros stu. unfold Sql.user_by_id_role. simpl.
    apply find_filter_keeps. intros u Hu. apply andb_prop in Hu as [_ Hr].
    destruct (u_role u); [|discriminate]. now rewrite andb_false_r.
Qed.

(** Deleting the only faculty user changes nothing for [stu1]. *)
Lemma faculty_management_leaves_checkin_alone_witness :
  snd (checkin (after demo_db (FacultyDelete "faculty1")) demo_checkin
         2000 2001 "rec-1")
  = snd (checkin demo_db demo_checkin 2000 2001 "rec-1")
  /\ attendance (fst (checkin (after demo_db (FacultyDelete "faculty1"))
                        demo_checkin 2000 2001 "rec-1"))
     = attendance (fst (checkin demo_db demo_checkin 2000 2001 "rec-1")).
Proof.
  exact (faculty_management_leaves_checkin_alone demo_db
           (FacultyDelete "faculty1") demo_checkin 2000 2001 "rec-1" I).
Defined.

(** ** From the session manager to the check-in and the QR page *)

(** The session id and the token that [POST /api/session] returned let a
    user with role student check in at any time up to the returned
    expiry, whatever requests were served since, as long as the student
    has no record for the session yet and the generated record id is
    new. *)
Theorem created_session_accepts_checkin
    db req u1 u2 now db1 id tok e url stu u es now2 now2' recId :
  create_session db req u1 u2 now
  = (db1, reply 200 (JsonSession id tok (Some e) url)) ->
  id <> "" -> tok <> "" -> stu <> "" ->
  Sql.user_by_id_role db stu student = Some u ->
  now2 <= e ->
  Sql.attendance_of (run db1 es) id stu = None ->
  existsb (fun r => (a_id r =? recId)%string) (attendance (run db1 es)) = false ->
  checkin (run db1 es) (mkCheckinRequest (Some id) (Some tok) (Some stu))
    now2 now2' recId
  = (set_attendance (run db1 es)
       (attendance (run db1 es)
          ++ [mkAttendance recId id stu "present" now2' "qr"])%list,
     reply 200 JsonCheckedIn).
Proof.
  intros Hcreate Hid Htok Hstu Hu Hnow Hnone Hfresh.
  assert (status (snd (create_session db req u1 u2 now)) = 200) as Hok
    by now rewrite Hcreate.
  apply create_session_ok in Hok
    as (fid & sec & f & c & _ & _ & _ & _ & Hnew & Heq).
  rewrite Heq in Hcreate. injection Hcreate as <- <- <- He _.
  assert (lookups_kept db
            (run (set_sessions db
                    (sessions db
                       ++ [mkSession u1 sec (Js.split_dash_head u2) now
                             (expiry now (durationMinutes req))])%list) es))
    as [_ KU _].
  { eapply lookups_kept_trans; [|apply lookups_kept_run].
    split; auto. intros sid x. apply find_app_some. }
  destruct (lookups_kept_run es
              (set_sessions db
                 (sessions db
                    ++ [mkSession u1 sec (Js.split_dash_head u2) now
                          (expiry now (durationMinutes req))])%list))
    as [KS _ _].
  assert (Sql.session_by_id
            (set_sessions db
               (sessions db
                  ++ [mkSession u1 sec (Js.split_dash_head u2) now
                        (expiry now (durationMinutes req))])%list) u1
          = Some (mkSession u1 sec (Js.split_dash_head u2) now (Some e)))
    as Hs.
  { unfold Sql.session_by_id. simpl. rewrite find_app_none.
    - simpl. now rewrite String.eqb_refl, He.
    - apply find_none_iff. intros x Hx.
      apply existsb_key_false in Hnew.
      destruct (String.eqb_spec (s_id x) u1) as [Hxid|]; [|reflexivity].
      exfalso. apply Hnew. apply in_map_iff. eauto. }
  unfold checkin, checkin_checks. simpl.
  destruct (String.eqb_spec u1 ""); [contradiction|].
  destruct (String.eqb_spec (Js.split_dash_head u2) ""); [contradiction|].
  destruct (String.eqb_spec stu ""); [contradiction|]. simpl.
  rewrite (KS _ _ Hs). simpl. rewrite String.eqb_refl. simpl.
  apply Z.ltb_ge in Hnow. rewrite Hnow. simpl.
  rewrite (KU _ _ Hu). simpl. rewrite Hnone. simpl.
  unfold checkin_insert. now rewrite insert_fresh.
Qed.

(** The session of the demo database, used by [stu2] at its last
    instant. *)
Lemma created_session_accepts_checkin_witness :
  checkin (run demo_db [])
    (mkCheckinRequest (Some demo_session) (Some "a1b2c3d4") (Some "stu2"))
    1801000 1801003 "rec-9"
  = (set_attendance (run demo_db [])
       (attendance (run demo_db [])
          ++ [mkAttendance "rec-9" demo_session "stu2" "present" 1801003 "qr"])%list,
     reply 200 JsonCheckedIn).
Proof.
  apply (created_session_accepts_checkin (initDb empty_db) demo_request
           demo_session "a1b2c3d4-1111-4222-8333-444455556666" 1000 demo_db
           demo_session "a1b2c3d4" 1801000
           "http://localhost:3001/scan?session=0b6f7a1e-5c1d-4e0a-9d56-3f2a7c8e9b10&token=a1b2c3d4"
           "stu2" (mkUser "stu2" "Cara Student" student) []);
    try reflexivity; try discriminate.
Defined.

(** [GET /session/:id/qr] answers 404 for an identifier of no session.
    For a session that [POST /api/session] created, and whatever requests
    were served since, the page requested over the same protocol and host
    encodes in its QR image, and shows, exactly the check-in URL that the
    creation returned; it answers 500 "QR error" only when the encoder
    fails. *)
Theorem qr_page_encodes_the_checkin_url
    (toDataURL : string -> option string)
    db req u1 u2 now db1 id tok expires url es :
  (forall p h x, Sql.session_by_id db x = None ->
     session_qr toDataURL db p h x = reply 404 (Text "Session not found"))
  /\ (create_session db req u1 u2 now
      = (db1, reply 200 (JsonSession id tok expires url)) ->
      session_qr toDataURL (run db1 es) (protocol req) (host req) id
      = match toDataURL url with
        | Some dataUrl => reply 200 (Text (qr_page id url dataUrl))
        | None => reply 500 (Text "QR error")
        end).
Proof.
  split.
  { intros p h x Hx. unfold session_qr. now rewrite Hx. }
  intros Hcreate.
  assert (status (snd (create_session db req u1 u2 now)) = 200) as Hok
    by now rewrite Hcreate.
  apply create_session_ok in Hok
    as (fid & sec & f & c & _ & _ & _ & _ & Hnew & Heq).
  rewrite Heq in Hcreate. injection Hcreate as <- <- <- <- <-.
  destruct (lookups_kept_run es
              (set_sessions db
                 (sessions db
                    ++ [mkSession u1 sec (Js.split_dash_head u2) now
                          (expiry now (durationMinutes req))])%list))
    as [KS _ _].
  assert (Sql.session_by_id
            (set_sessions db
               (sessions db
                  ++ [mkSession u1 sec (Js.split_dash_head u2) now
                        (expiry now (durationMinutes req))])%list) u1
          = Some (mkSession u1 sec (Js.split_dash_head u2) now
                    (expiry now (durationMinutes req))))
    as Hs.
  { unfold Sql.session_by_id. simpl. rewrite find_app_none.
    - simpl. now rewrite String.eqb_refl.
    - apply find_none_iff. intros x Hx.
      apply existsb_key_false in Hnew.
      destruct (String.eqb_spec (s_id x) u1) as [Hxid|]; [|reflexivity].
      exfalso. apply Hnew. apply in_map_iff. eauto. }
  unfold session_qr. rewrite (KS _ _ Hs). reflexivity.
Qed.

(** The QR page of the demo session, with an encoder that answers the
    URL itself. *)
Lemma qr_page_encodes_the_checkin_url_witness :
  session_qr Some (run demo_db [Checkin demo_checkin 2000 2001 "rec-1"])
    "http" "localhost:3001" demo_session
  = reply 200
      (Text (qr_page demo_session
               (checkin_url demo_request demo_session "a1b2c3d4")
               (checkin_url demo_request demo_session "a1b2c3d4"))).
Proof.
  exact (proj2 (qr_page_encodes_the_checkin_url Some (initDb empty_db)
                  demo_request demo_session
                  "a1b2c3d4-1111-4222-8333-444455556666" 1000 demo_db
                  demo_session "a1b2c3d4" (Some 1801000)
                  (checkin_url demo_request demo_session "a1b2c3d4")
                  [Checkin demo_checkin 2000 2001 "rec-1"])
           eq_refl).
Defined.

(** ** CSV export, continued *)

Lemma unique_key_filter {A : Type} (key : A -> string) (k : string) (l : list A) :
  NoDup (map key l) ->
  filter (fun x => (key x =? k)%string) l
  = match find (fun x => (key x =? k)%string) l with
    | Some x => [x]
    | None => []
    end.
Proof.
  induction l as [|a l IH]; simpl; intros Hl; [reflexivity|].
  inversion Hl as [|? ? Ha Hrest]; subst.
  destruct (String.eqb_spec (key a) k) as [Hk|Hk]; [|now apply IH].
  f_equal. apply find_none_filter, find_none_iff. intros x Hx.
  apply String.eqb_neq. intros Hxk. apply Ha. apply in_map_iff.
  exists x. split; [congruence | exact Hx].
Qed.

Lemma unique_key_inj {A : Type} (key : A -> string) (l : list A) (x y : A) :
  NoDup (map key l) -> In x l -> In y l -> key x = key y -> x = y.
Proof.
  induction l as [|a l IH]; simpl; intros Hl Hx Hy Hk; [destruct Hx|].
  inversion Hl as [|? ? Ha Hrest]; subst.
  destruct Hx as [->|Hx], Hy as [->|Hy]; auto.
  - exfalso. apply Ha. apply in_map_iff. exists y. auto.
  - exfalso. apply Ha. apply in_map_iff. exists x. auto.
Qed.

Lemma ids_of_section_member (l : list session) (sec k : string) :
  existsb (String.eqb k)
          (map s_id (filter (fun s => (s_section_id s =? sec)%string) l))
  = existsb (fun s => (s_id s =? k)%string && (s_section_id s =? sec)%string) l.
Proof.
  induction l as [|s l IH]; simpl; [reflexivity|].
  destruct (String.eqb_spec (s_section_id s) sec) as [Hs|Hs]; simpl.
  - rewrite IH, andb_true_r. f_equal. apply String.eqb_sym.
  - now rewrite IH, andb_false_r.
Qed.

Lemma flat_map_singletons {A B : Type} (f : A -> list B) (h : A -> B) (l : list A) :
  (forall a, In a l -> f a = [h a]) -> flat_map f l = map h l.
Proof.
  induction l as [|a l IH]; simpl; intros H; [reflexivity|].
  rewrite (H a (or_introl eq_refl)). simpl. f_equal.
  apply IH. intros x Hx. apply H. now right.
Qed.

(** With unique session identifiers, the join of the report pairs every
    selected attendance row with the one session it names. *)
Lemma attendance_in_unique db ids :
  NoDup (map s_id (sessions db)) ->
  (forall k, In k ids -> In k (map s_id (sessions db))) ->
  Sql.attendance_in db ids
  = map (fun a => (a, section_of_record db a))
        (filter (fun a => existsb (String.eqb (a_session_id a)) ids)
                (attendance db)).
Proof.
  intros Huniq Hids. unfold Sql.attendance_in.
  apply flat_map_singletons. intros a Ha.
  apply filter_In in Ha as [_ Ha].
  apply existsb_exists in Ha as (k & Hk & Heq). apply String.eqb_eq in Heq.
  subst k. apply Hids in Hk.
  rewrite (unique_key_filter s_id (a_session_id a) (sessions db) Huniq).
  unfold section_of_record, Sql.session_by_id.
  destruct (find _ (sessions db)) as [s|] eqn:Hf; [reflexivity|].
  exfalso. apply in_map_iff in Hk as (s & Hid & Hin).
  apply (find_none _ _ Hf) in Hin. apply String.eqb_neq in Hin. contradiction.
Qed.

Lemma nonempty_length {A : Type} (l : list A) :
  l <> [] -> (Z.of_nat (List.length l) =? 0) = false.
Proof.
  destruct l; [congruence|]. intros _. simpl List.length.
  apply Z.eqb_neq. lia.
Qed.

Lemma within_limit n :
  n <= 32766 -> (max_host_parameters <? n) = false.
Proof.
  intros H. now apply Z.ltb_ge.
Qed.

(** The report of a section that has a session, and at most 32766 of
    them, lists, in the order of the table, each attendance record whose
    session belongs to the section, once, under that section; records of
    other sections are left out.  Session identifiers are unique and the
    stored times are time values. *)
Theorem report_of_a_section db section sec :
  NoDup (map s_id (sessions db)) ->
  times_valid db ->
  Js.given section = Some sec ->
  (exists s, In s (sessions db) /\ s_section_id s = sec) ->
  Z.of_nat (List.length (Sql.session_ids_of_section db sec)) <= 32766 ->
  report_csv db section
  = reply 200
      (Csv (map (fun a => csv_of (a, Some sec))
                (filter (recorded_in_section db sec) (attendance db)))).
Proof.
  intros Huniq Htimes Hsec (s0 & Hs0 & Hs0sec) Hlimit.
  unfold report_csv. rewrite Hsec. rewrite (within_limit _ Hlimit).
  assert (Sql.session_ids_of_section db sec <> []) as Hne.
  { unfold Sql.session_ids_of_section. intros Hnil.
    assert (In (s_id s0)
              (map s_id (filter (fun s => (s_section_id s =? sec)%string)
                                (sessions db)))) as Hin.
    { apply in_map, filter_In. split; [exact Hs0|]. now apply String.eqb_eq. }
    rewrite Hnil in Hin. destruct Hin. }
  rewrite (nonempty_length _ Hne).
  assert (forall k, In k (Sql.session_ids_of_section db sec) ->
                    In k (map s_id (sessions db))) as Hsub.
  { intros k Hk. apply in_map_iff in Hk as (s & <- & Hin).
    apply filter_In in Hin as [Hin _]. now apply in_map. }
  rewrite (attendance_in_unique db _ Huniq Hsub).
  assert (forall a, In a (attendance db) ->
            existsb (String.eqb (a_session_id a))
                    (Sql.session_ids_of_section db sec)
            = recorded_in_section db sec a) as Hsame.
  { intros a _. apply ids_of_section_member. }
  rewrite (filter_ext_in _ _ _ Hsame).
  assert (forallb (fun r => valid_time (a_checkin_time (fst r)))
            (map (fun a => (a, section_of_record db a))
                 (filter (recorded_in_section db sec) (attendance db)))
          = true) as ->.
  { apply forallb_forall. intros r Hr.
    apply in_map_iff in Hr as (a & <- & Ha). apply filter_In in Ha as [Ha _].
    simpl. now apply Htimes. }
  rewrite map_map. unfold ok. do 2 f_equal. apply map_ext_in.
  intros a Ha. apply filter_In in Ha as [_ Ha]. unfold csv_of. simpl.
  f_equal. unfold section_of_record, recorded_in_section in *.
  apply existsb_exists in Ha as (s & Hs & Hp).
  apply andb_prop in Hp as [Hid Hsc].
  apply String.eqb_eq in Hid. apply String.eqb_eq in Hsc.
  unfold Sql.session_by_id.
  destruct (find _ (sessions db)) as [s'|] eqn:Hf.
  - apply find_some in Hf as [Hs' Hid']. apply String.eqb_eq in Hid'.
    assert (s' = s) as ->; [|simpl; congruence].
    apply (unique_key_inj s_id (sessions db)); auto. congruence.
  - apply (find_none _ _ Hf) in Hs. apply String.eqb_neq in Hs. contradiction.
Qed.

Lemma demo_sessions_unique : NoDup (map s_id (sessions demo_db_checked_in)).
Proof. simpl. repeat constructor. intros []. Qed.

Lemma demo_times_valid : times_valid demo_db_checked_in.
Proof. intros a [<-|[]]. reflexivity. Qed.

Lemma report_of_a_section_witness :
  report_csv demo_db_checked_in (Some "sec101")
  = reply 200
      (Csv (map (fun a => csv_of (a, Some "sec101"))
                (filter (recorded_in_section demo_db_checked_in "sec101")
                        (attendance demo_db_checked_in)))).
Proof.
  apply (report_of_a_section demo_db_checked_in (Some "sec101") "sec101").
  - exact demo_sessions_unique.
  - exact demo_times_valid.
  - reflexivity.
  - exists (mkSession demo_session "sec101" "a1b2c3d4" 1000 (Some 1801000)).
    simpl. auto.
  - discriminate.
Defined.

(** In a database that keeps its keys and references and holds at most
    32766 sessions, a successful check-in is the last row of the
    unfiltered report, with the section of its session, and the report
    has one row per attendance record. *)
Theorem checked_in_student_is_reported db req now now' recId db' r :
  keys_unique db -> references_hold db -> times_valid db ->
  Z.of_nat (List.length (sessions db)) <= 32766 ->
  valid_time now' = true ->
  checkin db req now now' recId = (db', r) ->
  status r = 200 ->
  exists rows sid stu s,
    Sql.session_by_id db sid = Some s
    /\ sessionId req = Some sid /\ studentId req = Some stu
    /\ List.length rows = List.length (attendance db)
    /\ report_csv db' None
       = reply 200
           (Csv (rows ++ [mkCsvRow recId sid (Some (s_section_id s)) stu
                                   "present" now' "qr"])%list).
Proof.
  intros Hkeys Hrefs Htimes Hlimit Hnow Hcheckin Hst.
  assert (status (snd (checkin db req now now' recId)) = 200) as Hok
    by now rewrite Hcheckin.
  pose proof (keys_unique_after db (Checkin req now now' recId) Hkeys) as Hk'.
  pose proof (references_hold_after db (Checkin req now now' recId) Hrefs)
    as Hr'.
  pose proof (times_valid_after db (Checkin req now now' recId) Hnow Htimes)
    as Ht'.
  assert (after db (Checkin req now now' recId) = db') as Hafter.
  { unfold after. simpl. now rewrite Hcheckin. }
  rewrite Hafter in Hk', Hr', Ht'.
  apply checkin_ok in Hok as (sid & stu & Hc & _ & Heq).
  rewrite Heq in Hcheckin. injection Hcheckin as Hdb' _.
  apply checkin_checks_next in Hc as (Hsid & Hstu & (s & Hs & _) & _ & _).
  exists (map (fun a => csv_of (a, section_of_record db' a)) (attendance db)),
    sid, stu, s.
  split; [exact Hs|].
  split; [now apply given_some in Hsid|].
  split; [now apply given_some in Hstu|].
  split; [now rewrite length_map|].
  unfold report_csv. simpl Js.given. cbv iota.
  assert (sessions db' = sessions db) as Hsess by (now subst db').
  assert (Sql.session_ids db' <> []) as Hne.
  { unfold Sql.session_ids. rewrite Hsess.
    apply find_some in Hs as [Hin _]. destruct (sessions db); [destruct Hin|].
    discriminate. }
  rewrite (nonempty_length _ Hne).
  assert (Z.of_nat (List.length (Sql.session_ids db')) <= 32766) as Hlimit'.
  { unfold Sql.session_ids. now rewrite length_map, Hsess. }
  rewrite (within_limit _ Hlimit').
  rewrite (attendance_in_unique db' _ (sessions_unique _ Hk'))
    by (intros k Hk; exact Hk).
  assert (filter (fun a => existsb (String.eqb (a_session_id a))
                                   (Sql.session_ids db'))
                 (attendance db') = attendance db') as ->.
  { apply forallb_filter_id. apply forallb_forall. intros a Ha.
    destruct (attendance_session _ Hr' a Ha) as (x & Hx & Hid).
    apply existsb_exists. exists (s_id x). split.
    - now apply in_map.
    - now apply String.eqb_eq. }
  assert (forallb (fun r => valid_time (a_checkin_time (fst r)))
            (map (fun a => (a, section_of_record db' a)) (attendance db'))
          = true) as ->.
  { apply forallb_forall. intros x Hx.
    apply in_map_iff in Hx as (a & <- & Ha). simpl. now apply Ht'. }
  rewrite map_map. unfold ok. do 2 f_equal.
  rewrite <- Hdb' at 1. simpl. rewrite map_app. simpl. f_equal.
  unfold csv_of. simpl. f_equal. f_equal.
  unfold section_of_record, Sql.session_by_id. simpl.
  rewrite Hsess. unfold Sql.session_by_id in Hs. now rewrite Hs.
Qed.

Lemma demo_keys_unique : keys_unique demo_db.
Proof.
  apply (keys_unique_run
           [Startup;
            CreateSession demo_request "0b6f7a1e-5c1d-4e0a-9d56-3f2a7c8e9b10"
                          "a1b2c3d4-1111-4222-8333-444455556666" 1000]
           empty_db).
  split; constructor.
Qed.

Lemma demo_references_hold : references_hold demo_db.
Proof.
  apply (references_hold_run
           [Startup;
            CreateSession demo_request "0b6f7a1e-5c1d-4e0a-9d56-3f2a7c8e9b10"
                          "a1b2c3d4-1111-4222-8333-444455556666" 1000]
           empty_db).
  split; simpl; intros x [].
Qed.

Lemma checked_in_student_is_reported_witness :
  exists rows sid stu s,
    Sql.session_by_id demo_db sid = Some s
    /\ sessionId demo_checkin = Some sid /\ studentId demo_checkin = Some stu
    /\ List.length rows = List.length (attendance demo_db)
    /\ report_csv demo_db_checked_in None
       = reply 200
           (Csv (rows ++ [mkCsvRow "rec-1" sid (Some (s_section_id s)) stu
                                   "present" 2001 "qr"])%list).
Proof.
  apply (checked_in_student_is_reported demo_db demo_checkin 2000 2001 "rec-1"
           demo_db_checked_in (reply 200 JsonCheckedIn)).
  - exact demo_keys_unique.
  - exact demo_references_hold.
  - intros a [].
  - discriminate.
  - reflexivity.
  - reflexivity.
  - reflexivity.
Defined.

(** ** Start-up *)

(** Running the initialisation a second time changes nothing, and it
    changes nothing at all once a user exists.  It never leaves [users]
    empty, never removes a user or a section, and never touches sessions
    or attendance. *)
Theorem initDb_is_idempotent db :
  initDb (initDb db) = initDb db
  /\ (users db <> [] -> initDb db = db)
  /\ users (initDb db) <> []
  /\ (forall u, In u (users db) -> In u (users (initDb db)))
  /\ (forall c, In c (sections db) -> In c (sections (initDb db)))
  /\ sessions (initDb db) = sessions db
  /\ attendance (initDb db) = attendance db.
Proof.
  assert (users (initDb db) <> []) as Hne.
  { destruct (initDb_cases db) as [[Hu ->]|(_ & -> & _)];
      [exact Hu | discriminate]. }
  split; [now apply initDb_seeded_once|].
  split; [apply initDb_seeded_once|].
  split; [exact Hne|].
  split; [|split; [|split;
    [apply initDb_keeps_sessions | apply initDb_keeps_attendance]]].
  - intros u Hu. rewrite initDb_seeded_once; [exact Hu|].
    intros Hnil. rewrite Hnil in Hu. destruct Hu.
  - intros c Hc.
    destruct (initDb_cases db) as [[_ ->]|(_ & _ & [->|[_ ->]])]; auto.
    apply in_or_app. now left.
Qed.

(** ** Durations sent as strings *)

Lemma digits_step c r acc k :
  Js.digit_of c = Some k ->
  Js.digits (String c r) acc
  = Js.digits r (Some (10 * match acc with Some a => a | None => 0 end + k)).
Proof.
  simpl. now intros ->.
Qed.

Lemma digits_acc d : forall acc,
  Js.digits (DecimalString.NilEmpty.string_of_uint d) (Some (Zpos acc))
  = Some (Zpos (Pos.of_uint_acc d acc)).
Proof.
  induction d; intros acc;
    cbn [DecimalString.NilEmpty.string_of_uint Pos.of_uint_acc];
    [reflexivity|..];
    erewrite digits_step by reflexivity; cbv beta iota;
    simpl (Z.of_nat (nat_of_ascii _) - 48);
    rewrite <- IHd; do 2 f_equal; lia.
Qed.

Lemma digits_zero d :
  Js.digits (DecimalString.NilEmpty.string_of_uint d) (Some 0)
  = Some (Z.of_N (Pos.of_uint d)).
Proof.
  induction d;
    cbn [DecimalString.NilEmpty.string_of_uint Pos.of_uint Z.of_N];
    [reflexivity|..];
    erewrite digits_step by reflexivity; cbv beta iota;
    simpl (10 * 0 + _); solve [exact IHd | apply digits_acc].
Qed.

Lemma digits_numeral d :
  d <> Decimal.Nil ->
  Js.digits (DecimalString.NilEmpty.string_of_uint d) None
  = Some (Z.of_N (Pos.of_uint d))
  /\ Js.parseInt_string (DecimalString.NilEmpty.string_of_uint d)
     = option_map Js.to_double
         (Js.digits (DecimalString.NilEmpty.string_of_uint d) None)
  /\ (DecimalString.NilEmpty.string_of_uint d =? "")%string = false
  /\ DecimalString.NilZero.string_of_uint d
     = DecimalString.NilEmpty.string_of_uint d.
Proof.
  destruct d; intros Hd; [congruence|..];
    (split; [|split; [|split]; reflexivity]);
    cbn [DecimalString.NilEmpty.string_of_uint Pos.of_uint Z.of_N];
    erewrite digits_step by reflexivity; cbv beta iota;
    simpl (10 * 0 + _); solve [apply digits_zero | apply digits_acc].
Qed.

(** The decimal string of an integer is read as the binary64 value
    nearest to it. *)
Lemma parseInt_decimal z :
  Js.parseInt_string (decimal z) = Some (Js.to_double z).
Proof.
  unfold decimal. destruct z as [|p|p]; simpl; [reflexivity| |].
  - destruct (digits_numeral _ (DecimalPos.Unsigned.to_uint_nonnil p))
      as (Hd & Hp & _ & ->).
    now rewrite Hp, Hd, DecimalPos.Unsigned.of_to.
  - destruct (digits_numeral _ (DecimalPos.Unsigned.to_uint_nonnil p))
      as (Hd & _ & _ & ->).
    unfold Js.parseInt_string. cbn [Js.skip_ws Js.is_ws].
    change (Js.is_ws "-") with false. cbv iota.
    now rewrite Hd, DecimalPos.Unsigned.of_to.
Qed.

Lemma decimal_nonempty z : (decimal z =? "")%string = false.
Proof.
  unfold decimal. destruct z as [|p|p]; simpl; try reflexivity.
  destruct (digits_numeral _ (DecimalPos.Unsigned.to_uint_nonnil p))
    as (_ & _ & He & ->).
  exact He.
Qed.

(** A duration that arrives as the decimal string of an integer, as a
    form field sends it, is read as that integer: with [Date.now()] a
    time value and a duration of at most six thousand million minutes
    either way, the session expires [z*60000] ms after its start, also
    for the string ["0"], which unlike the number 0 is not replaced by
    the default. *)
Theorem duration_string_is_read_as_its_number now z :
  Z.abs now <= 8640000000000000 ->
  Z.abs z <= 6000000000 ->
  Js.parseInt_string (decimal z) = Some z
  /\ expiry now (Js.Str (decimal z)) = Some (now + z * 60000).
Proof.
  intros Hn Hz.
  assert (Hp : Js.parseInt_string (decimal z) = Some z).
  { rewrite parseInt_decimal, to_double_exact by lia. reflexivity. }
  split; [exact Hp|].
  unfold expiry, Js.or_else, Js.truthy.
  rewrite decimal_nonempty. cbn [negb Js.parseInt].
  rewrite Hp. now apply expiry_exact.
Qed.

(** The form field ["45"] on a session started at time 1000. *)
Lemma duration_string_is_read_as_its_number_witness :
  Js.parseInt_string "45" = Some 45
  /\ expiry 1000 (Js.Str "45") = Some 2701000.
Proof.
  apply (duration_string_is_read_as_its_number 1000 45); simpl; lia.
Defined.

(** ** What no request does *)

Lemma after_tables db e :
  (exists new, sessions (after db e) = (sessions db ++ new)%list)
  /\ (forall u, In u (users db) -> u_role u = student -> In u (users (after db e)))
  /\ (forall u, In u (users (after db e)) -> u_role u = student ->
        In u (users db)
        \/ u = mkUser "stu1" "Bob Student" student
        \/ u = mkUser "stu2" "Cara Student" student)
  /\ (forall c, In c (sections (after db e)) ->
        In c (sections db)
        \/ c = mkSection "sec101" "CS101" "Intro to CS" "faculty1").
Proof.
  destruct (after_shape db e)
    as [->|[->|[(i & n & Hf & ->)|[(id & ->)|[(id & sec & tok & st & ex & c
          & _ & _ & ->)|(req & now & now' & recId & sid & stu & _ & _ & _
          & ->)]]]]]; simpl;
    try (repeat split; auto; exists []; now rewrite app_nil_r).
  - split; [exists []; now rewrite initDb_keeps_sessions, app_nil_r|].
    destruct (initDb_cases db) as [[_ ->]|(Hnil & Hus & Hsec)];
      [repeat split; auto|].
    split; [intros u Hu; rewrite Hnil in Hu; destruct Hu|].
    split.
    + rewrite Hus. intros u [<-|[<-|[<-|[]]]]; auto. discriminate.
    + destruct Hsec as [->|[_ ->]]; auto.
      intros c Hc. apply in_app_or in Hc as [Hc|[<-|[]]]; auto.
  - split; [exists []; now rewrite app_nil_r|].
    split; [intros u Hu _; apply in_or_app; now left|].
    split; auto.
    intros u Hu Hr. apply in_app_or in Hu as [Hu|[<-|[]]]; auto. discriminate.
  - split; [exists []; now rewrite app_nil_r|].
    split; [|split; auto].
    + intros u Hu Hr. apply filter_In. split; [exact Hu|].
      now rewrite Hr, andb_false_r.
    + intros u Hu _. apply filter_In in Hu as [Hu _]. auto.
  - repeat split; auto. eauto.
Qed.

(** Whatever requests are served: sessions are only appended, never
    removed or rewritten; a user with role student is never removed; and
    no request registers a student or a section, the only ones that
    appear being the demo rows that start-up seeds. *)
Theorem students_and_sections_come_from_the_seed es : forall db,
  (exists new, sessions (run db es) = (sessions db ++ new)%list)
  /\ (forall u, In u (users db) -> u_role u = student ->
        In u (users (run db es)))
  /\ (forall u, In u (users (run db es)) -> u_role u = student ->
        In u (users db)
        \/ u = mkUser "stu1" "Bob Student" student
        \/ u = mkUser "stu2" "Cara Student" student)
  /\ (forall c, In c (sections (run db es)) ->
        In c (sections db)
        \/ c = mkSection "sec101" "CS101" "Intro to CS" "faculty1").
Proof.
  induction es as [|e es IH]; intros db; simpl.
  - repeat split; auto. exists []. now rewrite app_nil_r.
  - destruct (after_tables db e) as ((n1 & H1) & K1 & U1 & C1).
    destruct (IH (after db e)) as ((n2 & H2) & K2 & U2 & C2).
    split; [|split; [|split]].
    + exists (n1 ++ n2)%list. now rewrite H2, H1, app_assoc.
    + auto.
    + intros u Hu Hr. destruct (U2 u Hu Hr) as [H|H]; auto.
    + intros c Hc. destruct (C2 c Hc) as [H|H]; auto.
Qed.

(** An identifier that any user has, student or faculty, cannot be given
    to a new faculty user: the request is answered 500 and the database
    stays as it was. *)
Theorem faculty_add_rejects_used_id db id name i n u :
  Js.given id = Some i ->
  Js.given name = Some n ->
  In u (users db) -> u_id u = i ->
  fst (faculty_add db id name) = db
  /\ status (snd (faculty_add db id name)) = 500.
Proof.
  intros Hi Hn Hu Hid. unfold faculty_add, Sql.insert. rewrite Hi, Hn. simpl.
  assert (existsb (fun r => (u_id r =? i)%string) (users db) = true) as ->.
  { apply existsb_exists. exists u. split; [exact Hu|]. now apply String.eqb_eq. }
  auto.
Qed.

(** A faculty user under the identifier of the student [stu1]. *)
Lemma faculty_add_rejects_used_id_witness :
  fst (faculty_add demo_db (Some "stu1") (Some "Prof. Bob")) = demo_db
  /\ status (snd (faculty_add demo_db (Some "stu1") (Some "Prof. Bob"))) = 500.
Proof.
  apply (faculty_add_rejects_used_id demo_db (Some "stu1") (Some "Prof. Bob")
           "stu1" "Prof. Bob" (mkUser "stu1" "Bob Student" student));
    try reflexivity.
  simpl. auto.
Defined.

(** ** The report on the databases the system reaches *)

Lemma attendance_in_rows db ids r :
  In r (Sql.attendance_in db ids) -> In (fst r) (attendance db).
Proof.
  unfold Sql.attendance_in. intros Hr.
  apply in_flat_map in Hr as (a & Ha & Hr).
  apply filter_In in Ha as [Ha _].
  destruct (filter _ (sessions db)) as [|s l].
  - destruct Hr as [<-|[]]. exact Ha.
  - apply in_map_iff in Hr as (x & <- & _). exact Ha.
Qed.

(** Starting from the empty database, and with the clock giving time
    values, the CSV export fails in one case only: it answers 200 while
    the sessions it selects, those of the section or all of them, number
    at most 32766, and 500 "Report failed" once they are more. *)
Theorem report_fails_only_past_the_parameter_limit es section :
  Forall clock_valid es ->
  let db := run empty_db es in
  let ids :=
    match Js.given section with
    | Some sec => Sql.session_ids_of_section db sec
    | None => Sql.session_ids db
    end in
  (Z.of_nat (List.length ids) <= 32766 ->
   status (report_csv db section) = 200)
  /\ (32766 < Z.of_nat (List.length ids) ->
      report_csv db section = reply 500 (Text "Report failed")).
Proof.
  intros Hes db ids.
  assert (times_valid db) as Ht.
  { apply times_valid_run; [exact Hes|]. intros a []. }
  unfold report_csv. fold ids. split; intros Hn.
  - rewrite (within_limit _ Hn).
    destruct (Z.of_nat _ =? 0); [reflexivity|].
    match goal with
    | |- context [forallb ?p ?l] =>
        assert (forallb p l = true) as ->; [|reflexivity]
    end.
    apply forallb_forall. intros r Hr. apply attendance_in_rows in Hr.
    now apply Ht.
  - assert ((Z.of_nat (List.length ids) =? 0) = false) as ->.
    { apply Z.eqb_neq. lia. }
    apply Z.ltb_lt in Hn. unfold max_host_parameters. now rewrite Hn.
Qed.

Lemma report_fails_only_past_the_parameter_limit_witness :
  status
    (report_csv
       (run empty_db
          [Startup;
           CreateSession demo_request "0b6f7a1e-5c1d-4e0a-9d56-3f2a7c8e9b10"
                         "a1b2c3d4-1111-4222-8333-444455556666" 1000;
           Checkin demo_checkin 2000 2001 "rec-1"])
       (Some "sec101"))
  = 200.
Proof.
  apply (report_fails_only_past_the_parameter_limit
           [Startup;
            CreateSession demo_request "0b6f7a1e-5c1d-4e0a-9d56-3f2a7c8e9b10"
                          "a1b2c3d4-1111-4222-8333-444455556666" 1000;
            Checkin demo_checkin 2000 2001 "rec-1"]
           (Some "sec101")).
  - repeat constructor.
  - discriminate.
Defined.

(** ** A duration that is not a number *)

(** A session created with a duration from which [parseInt] reads no
    number is created all the same, with no expiry stored, and is of no
    use: every check-in with its id and token at a positive time is
    answered "Session expired". *)
Theorem session_without_expiry_is_always_expired
    db req u1 u2 now db1 id tok url es stu now2 now2' recId :
  create_session db req u1 u2 now
  = (db1, reply 200 (JsonSession id tok None url)) ->
  id <> "" -> tok <> "" -> stu <> "" ->
  0 < now2 ->
  checkin (run db1 es) (mkCheckinRequest (Some id) (Some tok) (Some stu))
    now2 now2' recId
  = (run db1 es, reply 403 (JsonError "Session expired")).
Proof.
  intros Hcreate Hid Htok Hstu Hnow.
  assert (status (snd (create_session db req u1 u2 now)) = 200) as Hok
    by now rewrite Hcreate.
  apply create_session_ok in Hok
    as (fid & sec & f & c & _ & _ & _ & _ & Hnew & Heq).
  rewrite Heq in Hcreate. injection Hcreate as <- <- <- He _.
  destruct (lookups_kept_run es
              (set_sessions db
                 (sessions db
                    ++ [mkSession u1 sec (Js.split_dash_head u2) now
                          (expiry now (durationMinutes req))])%list))
    as [KS _ _].
  assert (Sql.session_by_id
            (set_sessions db
               (sessions db
                  ++ [mkSession u1 sec (Js.split_dash_head u2) now
                        (expiry now (durationMinutes req))])%list) u1
          = Some (mkSession u1 sec (Js.split_dash_head u2) now None))
    as Hs.
  { unfold Sql.session_by_id. simpl. rewrite find_app_none.
    - simpl. now rewrite String.eqb_refl, He.
    - apply find_none_iff. intros x Hx.
      apply existsb_key_false in Hnew.
      destruct (String.eqb_spec (s_id x) u1) as [Hxid|]; [|reflexivity].
      exfalso. apply Hnew. apply in_map_iff. eauto. }
  unfold checkin, checkin_checks. simpl.
  destruct (String.eqb_spec u1 ""); [contradiction|].
  destruct (String.eqb_spec (Js.split_dash_head u2) ""); [contradiction|].
  destruct (String.eqb_spec stu ""); [contradiction|]. simpl.
  rewrite (KS _ _ Hs). simpl. rewrite String.eqb_refl. simpl.
  apply Z.ltb_lt in Hnow. now rewrite Hnow.
Qed.

(** A session asked for with the duration ["soon"]. *)
Lemma session_without_expiry_is_always_expired_witness :
  let req := mkSessionRequest (Some "faculty1") (Some "sec101") (Js.Str "soon")
               "http" "localhost:3001" in
  let db1 := fst (create_session demo_db req
                    "5d0c8a52-7b1f-4c3e-8a9d-0e1f2a3b4c5d"
                    "9e8d7c6b-2222-4333-8444-555566667777" 5000) in
  checkin (run db1 [])
    (mkCheckinRequest (Some "5d0c8a52-7b1f-4c3e-8a9d-0e1f2a3b4c5d")
                      (Some "9e8d7c6b") (Some "stu1"))
    5001 5002 "rec-1"
  = (run db1 [], reply 403 (JsonError "Session expired")).
Proof.
  intros req db1.
  apply (session_without_expiry_is_always_expired demo_db req
           "5d0c8a52-7b1f-4c3e-8a9d-0e1f2a3b4c5d"
           "9e8d7c6b-2222-4333-8444-555566667777" 5000 db1
           "5d0c8a52-7b1f-4c3e-8a9d-0e1f2a3b4c5d" "9e8d7c6b"
           (checkin_url req "5d0c8a52-7b1f-4c3e-8a9d-0e1f2a3b4c5d" "9e8d7c6b")
           [] "stu1");
    try reflexivity; try discriminate.
Defined.
